(** * JoystickServo: a shallow embedding of [main.ts]

    The extension keeps all of its state in module-level variables of the
    [joystick_servo] namespace and talks to the board through the MakeCode
    runtime ([pins], [serial], [basic], [input]).  The variables become one
    record, every function a state transformer on that record, and every
    runtime call that has an outside effect appends an [Effect] to a log kept
    in the record, so that hardware writes and telemetry can be counted.

    Angles, thresholds, raw samples and times are the integer values the
    blocks exchange, hence [Z]. *)

From Stdlib Require Import ZArith Bool List String DecimalString Lia.
Import ListNotations.
Open Scope Z_scope.

Set Implicit Arguments.

(** ** The MakeCode runtime, as far as the extension uses it *)

(** Pin enumerations are passed around by their numeric value. *)
Definition AnalogPin := Z.
Definition DigitalPin := Z.

(** Outward calls, in the order they are made.  A module variable holding a
    pin is [null] until [init] has run, hence the [option]. *)
Inductive Effect : Type :=
| SetPullUp (pin : DigitalPin)
| ServoWritePin (pin : option AnalogPin) (value : Z)
| Pause (ms : Z)
| RedirectToUSB
| WriteLine (text : string)
| WriteValue (name : string) (value : Z).

(** What one pass of the loop samples: [input.runningTime()], the two
    [pins.analogReadPin] results and the [pins.digitalReadPin] result. *)
Record Readings : Type := mkReadings {
  currentTime : Z;
  xValue : Z;
  yValue : Z;
  buttonState : Z
}.

Module Math.

Definition min (a b : Z) : Z := Z.min a b.

Definition max (a b : Z) : Z := Z.max a b.

(** [Math.constrain] of the MakeCode core library:
    [value < low ? low : value > high ? high : value]. *)
Definition constrain (value low high : Z) : Z :=
  if value <? low then low else if value >? high then high else value.

End Math.

(** Number-to-text conversion of string concatenation and template
    literals, on integers. *)
Definition str (z : Z) : string := NilZero.string_of_int (Z.to_int z).

(** [a != b] on numbers. *)
Definition neq (a b : Z) : bool := negb (a =? b).

Section JoystickServo.

(** Handlers are user closures.  Running one is a transformation of the
    extension's state (it may call any exported function and write to the
    serial port); the two interpreters below are left abstract. *)
Variable ButtonHandler : Type.
Variable AngleHandler : Type.

(** The module-level variables of the namespace, plus the effect log. *)
Record State : Type := mkState {
  _joystickXPin : option AnalogPin;
  _joystickYPin : option AnalogPin;
  _buttonPin : option DigitalPin;
  _servoXPin : option AnalogPin;
  _servoYPin : option AnalogPin;
  _servoMinAngle : Z;
  _servoMaxAngle : Z;
  _servoInitAngle : Z;
  _servoStep : Z;
  _xMaxThresholdMax : Z;
  _xMaxThresholdMin : Z;
  _xMinThreshold : Z;
  _yMaxThresholdMax : Z;
  _yMaxThresholdMin : Z;
  _yMinThreshold : Z;
  _xAngle : Z;
  _yAngle : Z;
  _lastXAngle : Z;
  _lastYAngle : Z;
  _updated : bool;
  _lastActionTime : Z;
  _debugMode : bool;
  _buttonPressedHandler : option ButtonHandler;
  _angleChangedHandler : option AngleHandler;
  effects : list Effect
}.

(** Assignments to one variable, and to the groups that [init],
    [setServoLimits] and [setJoystickThresholds] assign together. *)
Definition set_xAngle (v : Z) (s : State) : State :=
  mkState (_joystickXPin s) (_joystickYPin s) (_buttonPin s) (_servoXPin s)
    (_servoYPin s) (_servoMinAngle s) (_servoMaxAngle s) (_servoInitAngle s)
    (_servoStep s) (_xMaxThresholdMax s) (_xMaxThresholdMin s)
    (_xMinThreshold s) (_yMaxThresholdMax s) (_yMaxThresholdMin s)
    (_yMinThreshold s) v (_yAngle s) (_lastXAngle s) (_lastYAngle s)
    (_updated s) (_lastActionTime s) (_debugMode s) (_buttonPressedHandler s)
    (_angleChangedHandler s) (effects s).

Definition set_yAngle (v : Z) (s : State) : State :=
  mkState (_joystickXPin s) (_joystickYPin s) (_buttonPin s) (_servoXPin s)
    (_servoYPin s) (_servoMinAngle s) (_servoMaxAngle s) (_servoInitAngle s)
    (_servoStep s) (_xMaxThresholdMax s) (_xMaxThresholdMin s)
    (_xMinThreshold s) (_yMaxThresholdMax s) (_yMaxThresholdMin s)
    (_yMinThreshold s) (_xAngle s) v (_lastXAngle s) (_lastYAngle s)
    (_updated s) (_lastActionTime s) (_debugMode s) (_buttonPressedHandler s)
    (_angleChangedHandler s) (effects s).

Definition set_lastXAngle (v : Z) (s : State) : State :=
  mkState (_joystickXPin s) (_joystickYPin s) (_buttonPin s) (_servoXPin s)
    (_servoYPin s) (_servoMinAngle s) (_servoMaxAngle s) (_servoInitAngle s)
    (_servoStep s) (_xMaxThresholdMax s) (_xMaxThresholdMin s)
    (_xMinThreshold s) (_yMaxThresholdMax s) (_yMaxThresholdMin s)
    (_yMinThreshold s) (_xAngle s) (_yAngle s) v (_lastYAngle s) (_updated s)
    (_lastActionTime s) (_debugMode s) (_buttonPressedHandler s)
    (_angleChangedHandler s) (effects s).

Definition set_lastYAngle (v : Z) (s : State) : State :=
  mkState (_joystickXPin s) (_joystickYPin s) (_buttonPin s) (_servoXPin s)
    (_servoYPin s) (_servoMinAngle s) (_servoMaxAngle s) (_servoInitAngle s)
    (_servoStep s) (_xMaxThresholdMax s) (_xMaxThresholdMin s)
    (_xMinThreshold s) (_yMaxThresholdMax s) (_yMaxThresholdMin s)
    (_yMinThreshold s) (_xAngle s) (_yAngle s) (_lastXAngle s) v (_updated s)
    (_lastActionTime s) (_debugMode s) (_buttonPressedHandler s)
    (_angleChangedHandler s) (effects s).

Definition set_updated (v : bool) (s : State) : State :=
  mkState (_joystickXPin s) (_joystickYPin s) (_buttonPin s) (_servoXPin s)
    (_servoYPin s) (_servoMinAngle s) (_servoMaxAngle s) (_servoInitAngle s)
    (_servoStep s) (_xMaxThresholdMax s) (_xMaxThresholdMin s)
    (_xMinThreshold s) (_yMaxThresholdMax s) (_yMaxThresholdMin s)
    (_yMinThreshold s) (_xAngle s) (_yAngle s) (_lastXAngle s) (_lastYAngle s)
    v (_lastActionTime s) (_debugMode s) (_buttonPressedHandler s)
    (_angleChangedHandler s) (effects s).

Definition set_lastActionTime (v : Z) (s : State) : State :=
  mkState (_joystickXPin s) (_joystickYPin s) (_buttonPin s) (_servoXPin s)
    (_servoYPin s) (_servoMinAngle s) (_servoMaxAngle s) (_servoInitAngle s)
    (_servoStep s) (_xMaxThresholdMax s) (_xMaxThresholdMin s)
    (_xMinThreshold s) (_yMaxThresholdMax s) (_yMaxThresholdMin s)
    (_yMinThreshold s) (_xAngle s) (_yAngle s) (_lastXAngle s) (_lastYAngle s)
    (_updated s) v (_debugMode s) (_buttonPressedHandler s)
    (_angleChangedHandler s) (effects s).


Definition set_buttonPressedHandler (v : option ButtonHandler) (s : State) : State :=
  mkState (_joystickXPin s) (_joystickYPin s) (_buttonPin s) (_servoXPin s)
    (_servoYPin s) (_servoMinAngle s) (_servoMaxAngle s) (_servoInitAngle s)
    (_servoStep s) (_xMaxThresholdMax s) (_xMaxThresholdMin s)
    (_xMinThreshold s) (_yMaxThresholdMax s) (_yMaxThresholdMin s)
    (_yMinThreshold s) (_xAngle s) (_yAngle s) (_lastXAngle s) (_lastYAngle s)
    (_updated s) (_lastActionTime s) (_debugMode s) v (_angleChangedHandler s)
    (effects s).

Definition set_angleChangedHandler (v : option AngleHandler) (s : State) : State :=
  mkState (_joystickXPin s) (_joystickYPin s) (_buttonPin s) (_servoXPin s)
    (_servoYPin s) (_servoMinAngle s) (_servoMaxAngle s) (_servoInitAngle s)
    (_servoStep s) (_xMaxThresholdMax s) (_xMaxThresholdMin s)
    (_xMinThreshold s) (_yMaxThresholdMax s) (_yMaxThresholdMin s)
    (_yMinThreshold s) (_xAngle s) (_yAngle s) (_lastXAngle s) (_lastYAngle s)
    (_updated s) (_lastActionTime s) (_debugMode s) (_buttonPressedHandler s)
    v (effects s).

Definition set_effects (v : list Effect) (s : State) : State :=
  mkState (_joystickXPin s) (_joystickYPin s) (_buttonPin s) (_servoXPin s)
    (_servoYPin s) (_servoMinAngle s) (_servoMaxAngle s) (_servoInitAngle s)
    (_servoStep s) (_xMaxThresholdMax s) (_xMaxThresholdMin s)
    (_xMinThreshold s) (_yMaxThresholdMax s) (_yMaxThresholdMin s)
    (_yMinThreshold s) (_xAngle s) (_yAngle s) (_lastXAngle s) (_lastYAngle s)
    (_updated s) (_lastActionTime s) (_debugMode s) (_buttonPressedHandler s)
    (_angleChangedHandler s) v.

Definition set_pins (jx jy : option AnalogPin) (b : option DigitalPin)
    (sx sy : option AnalogPin) (s : State) : State :=
  mkState jx jy b sx sy (_servoMinAngle s) (_servoMaxAngle s)
    (_servoInitAngle s) (_servoStep s) (_xMaxThresholdMax s)
    (_xMaxThresholdMin s) (_xMinThreshold s) (_yMaxThresholdMax s)
    (_yMaxThresholdMin s) (_yMinThreshold s) (_xAngle s) (_yAngle s)
    (_lastXAngle s) (_lastYAngle s) (_updated s) (_lastActionTime s)
    (_debugMode s) (_buttonPressedHandler s) (_angleChangedHandler s)
    (effects s).

Definition set_limits (minAngle maxAngle initAngle step : Z) (s : State)
    : State :=
  mkState (_joystickXPin s) (_joystickYPin s) (_buttonPin s) (_servoXPin s)
    (_servoYPin s) minAngle maxAngle initAngle step (_xMaxThresholdMax s)
    (_xMaxThresholdMin s) (_xMinThreshold s) (_yMaxThresholdMax s)
    (_yMaxThresholdMin s) (_yMinThreshold s) (_xAngle s) (_yAngle s)
    (_lastXAngle s) (_lastYAngle s) (_updated s) (_lastActionTime s)
    (_debugMode s) (_buttonPressedHandler s) (_angleChangedHandler s)
    (effects s).

Definition set_thresholds (xlo xhi xmin ylo yhi ymin : Z) (s : State)
    : State :=
  mkState (_joystickXPin s) (_joystickYPin s) (_buttonPin s) (_servoXPin s)
    (_servoYPin s) (_servoMinAngle s) (_servoMaxAngle s) (_servoInitAngle s)
    (_servoStep s) xhi xlo xmin yhi ylo ymin (_xAngle s) (_yAngle s)
    (_lastXAngle s) (_lastYAngle s) (_updated s) (_lastActionTime s)
    (_debugMode s) (_buttonPressedHandler s) (_angleChangedHandler s)
    (effects s).

Definition emit (e : Effect) (s : State) : State :=
  set_effects (effects s ++ [e]) s.

Definition emits (es : list Effect) (s : State) : State :=
  set_effects (effects s ++ es) s.

Variable callButtonHandler : ButtonHandler -> State -> State.
Variable callAngleHandler : AngleHandler -> Z -> Z -> State -> State.

(** Truthiness of a handler slot. *)
Definition registered {H : Type} (h : option H) : bool :=
  match h with Some _ => true | None => false end.

(** ** Exported functions *)

(** Both servos are driven to the current angles (internal function). *)
Definition moveServosX (s : State) : State :=
  if neq (_xAngle s) (_lastXAngle s) then
    let s := emit (ServoWritePin (_servoXPin s) (_xAngle s)) s in
    let s := set_lastXAngle (_xAngle s) s in
    if _debugMode s then
      emit (WriteLine ("X軸サーボ: " ++ str (_xAngle s) ++ "度に設定しました")) s
    else s
  else s.

Definition moveServosY (s : State) : State :=
  if neq (_yAngle s) (_lastYAngle s) then
    let s := emit (ServoWritePin (_servoYPin s) (_yAngle s)) s in
    let s := set_lastYAngle (_yAngle s) s in
    if _debugMode s then
      emit (WriteLine ("Y軸サーボ: " ++ str (_yAngle s) ++ "度に設定しました")) s
    else s
  else s.

(** The condition of the last [if] of [moveServos]. *)
Definition angleChangedGuard (s : State) : bool :=
  registered (_angleChangedHandler s)
  && (neq (_xAngle s) (_lastXAngle s) || neq (_yAngle s) (_lastYAngle s)).

Definition moveServos (s : State) : State :=
  let s := moveServosX s in
  let s := moveServosY s in
  if angleChangedGuard s then
    match _angleChangedHandler s with
    | Some h => callAngleHandler h (_xAngle s) (_yAngle s) s
    | None => s
    end
  else s.

(** The loop is handed to [basic.forever]; its passes are [forever_body]
    below, so starting it leaves the state as it is. *)
Definition startMainLoop (s : State) : State := s.

Definition init (joystickXPin joystickYPin : AnalogPin) (buttonPin : DigitalPin)
    (servoXPin servoYPin : AnalogPin) (s : State) : State :=
  let s := set_pins (Some joystickXPin) (Some joystickYPin) (Some buttonPin)
             (Some servoXPin) (Some servoYPin) s in
  let s := emit (SetPullUp buttonPin) s in
  let s := set_xAngle (_servoInitAngle s) s in
  let s := set_yAngle (_servoInitAngle s) s in
  let s := set_lastXAngle (_servoInitAngle s) s in
  let s := set_lastYAngle (_servoInitAngle s) s in
  let s := emit (ServoWritePin (_servoXPin s) (_xAngle s)) s in
  let s := emit (Pause 100) s in
  let s := emit (ServoWritePin (_servoYPin s) (_yAngle s)) s in
  let s :=
    if _debugMode s then
      emits
        [ RedirectToUSB;
          WriteLine "=== JoystickServo初期化完了 ===";
          WriteLine ("ジョイスティックX: P" ++ str joystickXPin);
          WriteLine ("ジョイスティックY: P" ++ str joystickYPin);
          WriteLine ("ジョイスティックボタン: P" ++ str buttonPin);
          WriteLine ("サーボX: P" ++ str servoXPin);
          WriteLine ("サーボY: P" ++ str servoYPin);
          WriteLine ("サーボ初期角度: X=" ++ str (_xAngle s) ++ "度, Y="
                     ++ str (_yAngle s) ++ "度") ] s
    else s in
  startMainLoop s.

Definition setServoLimits (minAngle maxAngle initAngle step : Z) (s : State)
    : State :=
  let s := set_limits minAngle maxAngle initAngle step s in
  let s := set_xAngle initAngle s in
  let s := set_yAngle initAngle s in
  if _debugMode s then
    emit (WriteLine ("サーボ角度範囲更新: 最小=" ++ str minAngle ++ ", 最大="
                     ++ str maxAngle ++ ", 初期=" ++ str initAngle
                     ++ ", 変化量=" ++ str step)) s
  else s.

Definition setJoystickThresholds
    (xMaxThresholdMin xMaxThresholdMax xMinThreshold
     yMaxThresholdMin yMaxThresholdMax yMinThreshold : Z) (s : State) : State :=
  let s := set_thresholds xMaxThresholdMin xMaxThresholdMax xMinThreshold
             yMaxThresholdMin yMaxThresholdMax yMinThreshold s in
  if _debugMode s then emit (WriteLine "ジョイスティック閾値を更新しました") s
  else s.


Definition onButtonPressed (handler : ButtonHandler) (s : State) : State :=
  set_buttonPressedHandler (Some handler) s.

Definition onAngleChanged (handler : AngleHandler) (s : State) : State :=
  set_angleChangedHandler (Some handler) s.

Definition setServoAngles (xAngle yAngle : Z) (s : State) : State :=
  let s := set_xAngle
             (Math.constrain xAngle (_servoMinAngle s) (_servoMaxAngle s)) s in
  let s := set_yAngle
             (Math.constrain yAngle (_servoMinAngle s) (_servoMaxAngle s)) s in
  moveServos s.

Definition resetServos (s : State) : State :=
  let s := set_xAngle (_servoInitAngle s) s in
  let s := set_yAngle (_servoInitAngle s) s in
  moveServos s.

Definition getXAngle (s : State) : Z := _xAngle s.
Definition getYAngle (s : State) : Z := _yAngle s.

(** ** The control loop *)

(** The three blocks of the gated part of a pass, in source order. *)
Definition controlX (xValue : Z) (s : State) : State :=
  if (xValue >? _xMaxThresholdMin s) && (xValue <=? _xMaxThresholdMax s) then
    let s := set_xAngle
               (Math.min (_xAngle s + _servoStep s) (_servoMaxAngle s)) s in
    set_updated true s
  else if xValue <? _xMinThreshold s then
    let s := set_xAngle
               (Math.max (_xAngle s - _servoStep s) (_servoMinAngle s)) s in
    set_updated true s
  else s.

Definition controlY (yValue : Z) (s : State) : State :=
  if (yValue >? _yMaxThresholdMin s) && (yValue <=? _yMaxThresholdMax s) then
    let s := set_yAngle
               (Math.min (_yAngle s + _servoStep s) (_servoMaxAngle s)) s in
    set_updated true s
  else if yValue <? _yMinThreshold s then
    let s := set_yAngle
               (Math.max (_yAngle s - _servoStep s) (_servoMinAngle s)) s in
    set_updated true s
  else s.

Definition controlButton (buttonState : Z) (s : State) : State :=
  if buttonState =? 0 then
    let s :=
      match _buttonPressedHandler s with
      | Some h => callButtonHandler h s
      | None =>
          let s := set_xAngle (_servoInitAngle s) s in
          set_yAngle (_servoInitAngle s) s
      end in
    let s := set_updated true s in
    if _debugMode s then emit (WriteLine "## ボタンが押されました ##") s
    else s
  else s.

(** Everything below the time gate. *)
Definition gatedAction (r : Readings) (s : State) : State :=
  let s := set_updated false s in
  let s := controlX (xValue r) s in
  let s := controlY (yValue r) s in
  let s := controlButton (buttonState r) s in
  if _updated s then
    let s := set_lastActionTime (currentTime r) s in
    moveServos s
  else s.

(** The telemetry block at the head of a pass. *)
Definition reportReadings (r : Readings) (s : State) : State :=
  if _debugMode s then
    emits [ WriteValue "x" (xValue r);
            WriteValue "y" (yValue r);
            WriteValue "btn" (if buttonState r =? 0 then 1 else 0) ] s
  else s.

(** One pass of the function given to [basic.forever]. *)
Definition forever_body (r : Readings) (s : State) : State :=
  let s := reportReadings r s in
  let s :=
    if currentTime r - _lastActionTime s >? 100 then gatedAction r s else s in
  emit (Pause 50) s.

(** The loop over the first passes, one [Readings] per pass. *)
Fixpoint forever (rs : list Readings) (s : State) : State :=
  match rs with
  | [] => s
  | r :: rs => forever rs (forever_body r s)
  end.

(** The initialisers of the module-level variables. *)
Definition initial : State :=
  mkState None None None None None 0 180 90 15 780 760 250 800 760 250
    90 90 90 90 false 0 false None None [].

End JoystickServo.

(** ** Observations on the effect log *)

(** The hardware servo writes among some effects, in order. *)
Definition servoWrites (es : list Effect) : list (option AnalogPin * Z) :=
  flat_map (fun e => match e with
                     | ServoWritePin p v => [(p, v)]
                     | _ => []
                     end) es.

(** ** Handlers of the README's examples

    [onButtonPressed] is shown there with a handler that calls
    [resetServos] and reports on the serial port, [onAngleChanged] with one
    that writes both angles. *)

Definition readmeAngleHandler (_ : unit) (xAngle yAngle : Z)
    (s : State unit unit) : State unit unit :=
  emits [WriteValue "X" xAngle; WriteValue "Y" yAngle] s.

Definition readmeButtonHandler (_ : unit) (s : State unit unit)
    : State unit unit :=
  emit (WriteLine "サーボをリセットしました") (resetServos readmeAngleHandler s).

(** The loop when handlers are the README's, the state the module starts
    in, and that state with both handlers registered. *)
Definition pass := forever_body readmeButtonHandler readmeAngleHandler.
Definition passes := forever readmeButtonHandler readmeAngleHandler.
Definition start : State unit unit := initial unit unit.
Definition startWithHandlers : State unit unit :=
  onAngleChanged tt (onButtonPressed tt start).

(** Sample programs and passes for the worked cases: a board initialised
    on pins 0, 1, 8, 12 and 16, with and without the README's handlers; a
    configuration whose decrease trigger lies above the band; a board driven
    to the upper limit; limits changed to centre 45. *)
Definition ready : State unit unit := init 0 1 8 12 16 start.
Definition readyWithHandlers : State unit unit :=
  init 0 1 8 12 16 startWithHandlers.
Definition triggerAboveBand : State unit unit :=
  setJoystickThresholds 760 780 1000 760 800 250 ready.
Definition atUpperLimit : State unit unit :=
  setServoAngles readmeAngleHandler 180 90 ready.
Definition recentred : State unit unit := setServoLimits 0 180 45 15 ready.

Definition passUp (t : Z) : Readings := mkReadings t 770 500 1.
Definition passDown (t : Z) : Readings := mkReadings t 200 500 1.
Definition passPressed (t : Z) : Readings := mkReadings t 500 500 0.
Definition passAbove (t : Z) : Readings := mkReadings t 900 500 1.

(** ** Vocabulary of the statements *)

(** The per-axis stepping rule, for a band [(lo, hi]], a decrease trigger
    [mn], a reading [r] and the angle before ([a]) and after ([a']). *)
Definition stepRule (lo hi mn step amin amax r a a' : Z) : Prop :=
  (lo < r <= hi -> a' = Z.min (a + step) amax)
  /\ (~ lo < r <= hi -> r < mn -> a' = Z.max (a - step) amin)
  /\ (~ lo < r <= hi -> mn <= r -> a' = a).

(** The same rule with the no-change case worded as a reading within
    [[mn, lo]] or above [hi], whatever [mn] is. *)
Definition stepRuleAsWorded (lo hi mn step amin amax r a a' : Z) : Prop :=
  (lo < r <= hi -> a' = Z.min (a + step) amax)
  /\ (~ lo < r <= hi -> r < mn -> a' = Z.max (a - step) amin)
  /\ (mn <= r <= lo \/ r > hi -> a' = a).

(** A reading asks for a step, up or down. *)
Definition asksStep (lo hi mn r : Z) : Prop := lo < r <= hi \/ r < mn.

(** The configuration invariant on the servo limits, and the range
    invariant on the two current angles. *)
Definition limitsOk {BH AH : Type} (s : State BH AH) : Prop :=
  _servoMinAngle s <= _servoInitAngle s <= _servoMaxAngle s
  /\ 0 < _servoStep s.

Definition inRange {BH AH : Type} (s : State BH AH) : Prop :=
  _servoMinAngle s <= _xAngle s <= _servoMaxAngle s
  /\ _servoMinAngle s <= _yAngle s <= _servoMaxAngle s.

(** The state at the button block of a gated pass: telemetry done, flag
    cleared, both axis blocks run. *)
Definition decided {BH AH : Type} (r : Readings) (s : State BH AH)
    : State BH AH :=
  controlY (yValue r)
    (controlX (xValue r) (set_updated false (reportReadings r s))).

(** A gated pass acts when a reading asks for a step or the button reads
    pressed. *)
Definition passActs {BH AH : Type} (r : Readings) (s : State BH AH) : Prop :=
  asksStep (_xMaxThresholdMin s) (_xMaxThresholdMax s) (_xMinThreshold s)
    (xValue r)
  \/ asksStep (_yMaxThresholdMin s) (_yMaxThresholdMax s) (_yMinThreshold s)
       (yValue r)
  \/ buttonState r = 0.

(** The action-time rule worded on the angles: the action time becomes the
    time of the pass exactly when an angle changed or the button reads
    pressed. *)
Definition actionTimeRuleAsWorded {BH AH : Type} (r : Readings)
    (s s' : State BH AH) : Prop :=
  _lastActionTime s' = currentTime r
  <-> (_xAngle s' <> _xAngle s \/ _yAngle s' <> _yAngle s
       \/ buttonState r = 0).

(** The time gate is open at every pass of a run in which every pass acts:
    each pass comes more than 100 ms after the one before, the first more
    than 100 ms after [t0]. *)
Fixpoint gatedEach (t0 : Z) (rs : list Readings) : Prop :=
  match rs with
  | [] => True
  | r :: rs => currentTime r - t0 > 100 /\ gatedEach (currentTime r) rs
  end.

(** ** Further observations and samples *)



(** No user handler runs in a pass: the button is released, or no button
    handler is registered (the angle handler never runs). *)
Definition noHandlerRuns {BH AH : Type} (r : Readings) (s : State BH AH)
    : Prop :=
  buttonState r <> 0 \/ _buttonPressedHandler s = None.









(** Every servo write of a list carries a value between two bounds. *)
Definition writesWithin (lo hi : Z) (ws : list (option AnalogPin * Z)) : Prop :=
  Forall (fun pv => lo <= snd pv <= hi) ws.

Definition initAboveLimit : State unit unit :=
  setServoLimits 0 100 150 15 ready.

(** A pass that reads both sticks at rest, a board with debug on, and a
    program with two button handlers to choose from and an angle handler that
    does nothing. *)
Definition passIdle (t : Z) : Readings := mkReadings t 500 500 1.

Definition idleAngleHandler (_ : unit) (_ _ : Z) (s : State bool unit)
    : State bool unit := s.

Definition eitherButtonHandler (h : bool) (s : State bool unit)
    : State bool unit :=
  if h then resetServos idleAngleHandler s
  else setServoAngles idleAngleHandler 0 0 s.

(** * Properties *)

Lemma neq_true_iff (a b : Z) : neq a b = true <-> a <> b.
Proof.
  unfold neq. rewrite negb_true_iff, Z.eqb_neq. tauto.
Qed.

Lemma neq_false_iff (a b : Z) : neq a b = false <-> a = b.
Proof.
  unfold neq. rewrite negb_false_iff, Z.eqb_eq. tauto.
Qed.

Lemma neq_refl (a : Z) : neq a a = false.
Proof. now apply neq_false_iff. Qed.

Lemma servoWrites_app (es fs : list Effect) :
  servoWrites (es ++ fs) = servoWrites es ++ servoWrites fs.
Proof. unfold servoWrites. now rewrite flat_map_app. Qed.

(** ** Actuation *)

Section Actuation.

Variables BH AH : Type.
Variable callAngle : AH -> Z -> Z -> State BH AH -> State BH AH.

Implicit Type s : State BH AH.

(** Writing back the value a variable already holds changes nothing. *)
Lemma set_lastXAngle_same s : set_lastXAngle (_lastXAngle s) s = s.
Proof. now destruct s. Qed.

Lemma set_lastYAngle_same s : set_lastYAngle (_lastYAngle s) s = s.
Proof. now destruct s. Qed.

Lemma set_effects_same s : set_effects (effects s) s = s.
Proof. now destruct s. Qed.

(** The effects of the X block: one servo write when the angle differs from
    the last commanded one, followed by its telemetry line in debug mode. *)
Lemma moveServosX_shape s :
  exists out,
    moveServosX s = set_effects (effects s ++ out) (set_lastXAngle (_xAngle s) s)
    /\ servoWrites out =
         (if neq (_xAngle s) (_lastXAngle s)
          then [(_servoXPin s, _xAngle s)] else [])
    /\ (_xAngle s = _lastXAngle s -> out = []).
Proof.
  unfold moveServosX.
  destruct (neq (_xAngle s) (_lastXAngle s)) eqn:E.
  - cbn. destruct (_debugMode s).
    + eexists [_; _]. split; [ | split ].
      * unfold emit. cbn. now rewrite <- app_assoc.
      * reflexivity.
      * intros H. now apply neq_true_iff in E.
    + exists [ServoWritePin (_servoXPin s) (_xAngle s)].
      repeat split. intros H. now apply neq_true_iff in E.
  - exists []. apply neq_false_iff in E. rewrite E, app_nil_r.
    now rewrite set_lastXAngle_same, set_effects_same.
Qed.

Lemma moveServosY_shape s :
  exists out,
    moveServosY s = set_effects (effects s ++ out) (set_lastYAngle (_yAngle s) s)
    /\ servoWrites out =
         (if neq (_yAngle s) (_lastYAngle s)
          then [(_servoYPin s, _yAngle s)] else [])
    /\ (_yAngle s = _lastYAngle s -> out = []).
Proof.
  unfold moveServosY.
  destruct (neq (_yAngle s) (_lastYAngle s)) eqn:E.
  - cbn. destruct (_debugMode s).
    + eexists [_; _]. split; [ | split ].
      * unfold emit. cbn. now rewrite <- app_assoc.
      * reflexivity.
      * intros H. now apply neq_true_iff in E.
    + exists [ServoWritePin (_servoYPin s) (_yAngle s)].
      repeat split. intros H. now apply neq_true_iff in E.
  - exists []. apply neq_false_iff in E. rewrite E, app_nil_r.
    now rewrite set_lastYAngle_same, set_effects_same.
Qed.

(** After the two blocks both last commanded angles equal the current ones,
    so the guard of the callback cannot hold. *)
Lemma angleChangedGuard_after_blocks s :
  angleChangedGuard (moveServosY (moveServosX s)) = false.
Proof.
  destruct (moveServosX_shape s) as (ox & -> & _).
  match goal with |- context [moveServosY ?t] =>
    destruct (moveServosY_shape t) as (oy & -> & _) end.
  unfold angleChangedGuard. cbn. rewrite !neq_refl. apply andb_false_r.
Qed.

Lemma moveServos_blocks s : moveServos callAngle s = moveServosY (moveServosX s).
Proof.
  unfold moveServos. cbv zeta. now rewrite angleChangedGuard_after_blocks.
Qed.

(** What a pass does to the state: only the two last commanded angles and
    the effect log move. *)
Lemma moveServos_shape s :
  exists outX outY,
    moveServos callAngle s =
      set_effects (effects s ++ outX ++ outY)
        (set_lastYAngle (_yAngle s) (set_lastXAngle (_xAngle s) s))
    /\ servoWrites outX =
         (if neq (_xAngle s) (_lastXAngle s)
          then [(_servoXPin s, _xAngle s)] else [])
    /\ servoWrites outY =
         (if neq (_yAngle s) (_lastYAngle s)
          then [(_servoYPin s, _yAngle s)] else [])
    /\ (_xAngle s = _lastXAngle s -> outX = [])
    /\ (_yAngle s = _lastYAngle s -> outY = []).
Proof.
  rewrite moveServos_blocks.
  destruct (moveServosX_shape s) as (ox & -> & Hx & Nx).
  match goal with |- context [moveServosY ?t] =>
    destruct (moveServosY_shape t) as (oy & -> & Hy & Ny) end.
  exists ox, oy. cbn in *. rewrite app_assoc. auto.
Qed.



End Actuation.

(** ** The control loop *)

Section Loop.

Variables BH AH : Type.
Variable callButton : BH -> State BH AH -> State BH AH.
Variable callAngle : AH -> Z -> Z -> State BH AH -> State BH AH.

Implicit Type s : State BH AH.
Implicit Type r : Readings.

Local Abbreviation tick := (forever_body callButton callAngle).
Local Abbreviation action := (gatedAction callButton callAngle).

Lemma reportReadings_shape r s :
  exists out,
    reportReadings r s = set_effects (effects s ++ out) s
    /\ servoWrites out = [].
Proof.
  unfold reportReadings. destruct (_debugMode s).
  - eexists. split; reflexivity.
  - exists []. now rewrite app_nil_r, set_effects_same.
Qed.

Lemma controlX_cases v s :
  (_xMaxThresholdMin s < v <= _xMaxThresholdMax s
   /\ controlX v s =
        set_updated true
          (set_xAngle (Z.min (_xAngle s + _servoStep s) (_servoMaxAngle s)) s))
  \/ (~ _xMaxThresholdMin s < v <= _xMaxThresholdMax s
      /\ v < _xMinThreshold s
      /\ controlX v s =
           set_updated true
             (set_xAngle (Z.max (_xAngle s - _servoStep s) (_servoMinAngle s))
                s))
  \/ (~ _xMaxThresholdMin s < v <= _xMaxThresholdMax s
      /\ _xMinThreshold s <= v
      /\ controlX v s = s).
Proof.
  unfold controlX. rewrite Z.gtb_ltb.
  destruct (Z.ltb_spec (_xMaxThresholdMin s) v);
    destruct (Z.leb_spec v (_xMaxThresholdMax s));
    destruct (Z.ltb_spec v (_xMinThreshold s)); cbn;
    solve [ left; split; [ lia | reflexivity ]
          | right; left; repeat split; solve [ lia | reflexivity ]
          | right; right; repeat split; solve [ lia | reflexivity ] ].
Qed.

Lemma controlY_cases v s :
  (_yMaxThresholdMin s < v <= _yMaxThresholdMax s
   /\ controlY v s =
        set_updated true
          (set_yAngle (Z.min (_yAngle s + _servoStep s) (_servoMaxAngle s)) s))
  \/ (~ _yMaxThresholdMin s < v <= _yMaxThresholdMax s
      /\ v < _yMinThreshold s
      /\ controlY v s =
           set_updated true
             (set_yAngle (Z.max (_yAngle s - _servoStep s) (_servoMinAngle s))
                s))
  \/ (~ _yMaxThresholdMin s < v <= _yMaxThresholdMax s
      /\ _yMinThreshold s <= v
      /\ controlY v s = s).
Proof.
  unfold controlY. rewrite Z.gtb_ltb.
  destruct (Z.ltb_spec (_yMaxThresholdMin s) v);
    destruct (Z.leb_spec v (_yMaxThresholdMax s));
    destruct (Z.ltb_spec v (_yMinThreshold s)); cbn;
    solve [ left; split; [ lia | reflexivity ]
          | right; left; repeat split; solve [ lia | reflexivity ]
          | right; right; repeat split; solve [ lia | reflexivity ] ].
Qed.

Lemma controlX_stepRule v s :
  stepRule (_xMaxThresholdMin s) (_xMaxThresholdMax s) (_xMinThreshold s)
    (_servoStep s) (_servoMinAngle s) (_servoMaxAngle s)
    v (_xAngle s) (_xAngle (controlX v s)).
Proof.
  unfold stepRule.
  destruct (controlX_cases v s) as [(? & ->) | [(? & ? & ->) | (? & ? & ->)]];
    cbn; repeat split; intros; solve [ reflexivity | lia | tauto ].
Qed.

Lemma controlY_stepRule v s :
  stepRule (_yMaxThresholdMin s) (_yMaxThresholdMax s) (_yMinThreshold s)
    (_servoStep s) (_servoMinAngle s) (_servoMaxAngle s)
    v (_yAngle s) (_yAngle (controlY v s)).
Proof.
  unfold stepRule.
  destruct (controlY_cases v s) as [(? & ->) | [(? & ? & ->) | (? & ? & ->)]];
    cbn; repeat split; intros; solve [ reflexivity | lia | tauto ].
Qed.

Lemma reportReadings_lastActionTime r s :
  _lastActionTime (reportReadings r s) = _lastActionTime s.
Proof.
  now destruct (reportReadings_shape r s) as (out & -> & _).
Qed.

(** The two ways a pass can go at the time gate. *)
Lemma forever_body_gated r s :
  currentTime r - _lastActionTime s > 100 ->
  tick r s = emit (Pause 50) (action r (reportReadings r s)).
Proof.
  intros G. unfold forever_body. cbv zeta.
  rewrite reportReadings_lastActionTime.
  now destruct (Z.gtb_spec (currentTime r - _lastActionTime s) 100); [ | lia ].
Qed.

Lemma forever_body_idle r s :
  currentTime r - _lastActionTime s <= 100 ->
  tick r s = emit (Pause 50) (reportReadings r s).
Proof.
  intros G. unfold forever_body. cbv zeta.
  rewrite reportReadings_lastActionTime.
  now destruct (Z.gtb_spec (currentTime r - _lastActionTime s) 100); [ lia | ].
Qed.

Lemma controlButton_released b s : b <> 0 -> controlButton callButton b s = s.
Proof.
  intros H. unfold controlButton. now destruct (Z.eqb_spec b 0).
Qed.

(** The pressed-button block always marks the pass as acted. *)
Lemma controlButton_pressed_updated s :
  _updated (controlButton callButton 0 s) = true.
Proof.
  unfold controlButton. cbn.
  destruct (_buttonPressedHandler s); cbn;
    match goal with |- context [if ?b then _ else _] => now destruct b end.
Qed.

(** Without a handler the pressed-button block is the default action. *)
Lemma controlButton_default s :
  _buttonPressedHandler s = None ->
  exists out,
    controlButton callButton 0 s =
      set_effects (effects s ++ out)
        (set_updated true
           (set_yAngle (_servoInitAngle s) (set_xAngle (_servoInitAngle s) s)))
    /\ servoWrites out = [].
Proof.
  intros H. unfold controlButton. cbn. rewrite H. cbn.
  destruct (_debugMode s).
  - eexists. split; reflexivity.
  - exists []. split; [ | reflexivity ]. cbn. now rewrite app_nil_r.
Qed.

(** With a handler it is the handler's run, the flag and the telemetry. *)
Lemma controlButton_handler s h :
  _buttonPressedHandler s = Some h ->
  exists out,
    controlButton callButton 0 s =
      set_effects (effects (callButton h s) ++ out)
        (set_updated true (callButton h s))
    /\ servoWrites out = [].
Proof.
  intros H. unfold controlButton. cbn. rewrite H. cbn.
  destruct (_debugMode (callButton h s)).
  - eexists. split; reflexivity.
  - exists []. split; [ | reflexivity ]. cbn. now rewrite app_nil_r.
Qed.

(** The two axis blocks together, started with the flag cleared. *)
Lemma decision_shape xv yv s :
  exists ax ay u,
    controlY yv (controlX xv (set_updated false s)) =
      set_updated u (set_yAngle ay (set_xAngle ax s))
    /\ stepRule (_xMaxThresholdMin s) (_xMaxThresholdMax s) (_xMinThreshold s)
         (_servoStep s) (_servoMinAngle s) (_servoMaxAngle s)
         xv (_xAngle s) ax
    /\ stepRule (_yMaxThresholdMin s) (_yMaxThresholdMax s) (_yMinThreshold s)
         (_servoStep s) (_servoMinAngle s) (_servoMaxAngle s)
         yv (_yAngle s) ay
    /\ (u = true <->
          asksStep (_xMaxThresholdMin s) (_xMaxThresholdMax s)
            (_xMinThreshold s) xv
          \/ asksStep (_yMaxThresholdMin s) (_yMaxThresholdMax s)
               (_yMinThreshold s) yv).
Proof.
  unfold stepRule, asksStep.
  destruct (controlX_cases xv (set_updated false s))
    as [(X1 & EX) | [(X1 & X2 & EX) | (X1 & X2 & EX)]];
    rewrite EX; clear EX;
    [ pose (ax := Z.min (_xAngle s + _servoStep s) (_servoMaxAngle s));
      pose (ux := true)
    | pose (ax := Z.max (_xAngle s - _servoStep s) (_servoMinAngle s));
      pose (ux := true)
    | pose (ax := _xAngle s); pose (ux := false) ];
    (match goal with |- context [controlY yv ?t] =>
       destruct (controlY_cases yv t)
         as [(Y1 & EY) | [(Y1 & Y2 & EY) | (Y1 & Y2 & EY)]] end;
     rewrite EY; clear EY;
     [ exists ax, (Z.min (_yAngle s + _servoStep s) (_servoMaxAngle s)), true
     | exists ax, (Z.max (_yAngle s - _servoStep s) (_servoMinAngle s)), true
     | exists ax, (_yAngle s), ux ]);
    subst ax ux; cbn in *;
    (split; [ now destruct s | ]);
    repeat split; intros; try reflexivity; try lia; try tauto;
    try discriminate.
Qed.

(** A gated pass with the button released. *)
Lemma action_released_shape r s :
  buttonState r <> 0 ->
  exists ax ay,
    stepRule (_xMaxThresholdMin s) (_xMaxThresholdMax s) (_xMinThreshold s)
      (_servoStep s) (_servoMinAngle s) (_servoMaxAngle s)
      (xValue r) (_xAngle s) ax
    /\ stepRule (_yMaxThresholdMin s) (_yMaxThresholdMax s) (_yMinThreshold s)
         (_servoStep s) (_servoMinAngle s) (_servoMaxAngle s)
         (yValue r) (_yAngle s) ay
    /\ ((asksStep (_xMaxThresholdMin s) (_xMaxThresholdMax s)
           (_xMinThreshold s) (xValue r)
         \/ asksStep (_yMaxThresholdMin s) (_yMaxThresholdMax s)
              (_yMinThreshold s) (yValue r))
        /\ (exists outX outY,
             action r s =
               set_effects (effects s ++ outX ++ outY)
                 (set_lastYAngle ay
                    (set_lastXAngle ax
                       (set_lastActionTime (currentTime r)
                          (set_updated true
                             (set_yAngle ay (set_xAngle ax s))))))
             /\ servoWrites outX =
                  (if neq ax (_lastXAngle s)
                   then [(_servoXPin s, ax)] else [])
             /\ servoWrites outY =
                  (if neq ay (_lastYAngle s)
                   then [(_servoYPin s, ay)] else []))
        \/
        ~ (asksStep (_xMaxThresholdMin s) (_xMaxThresholdMax s)
             (_xMinThreshold s) (xValue r)
           \/ asksStep (_yMaxThresholdMin s) (_yMaxThresholdMax s)
                (_yMinThreshold s) (yValue r))
        /\ ax = _xAngle s /\ ay = _yAngle s
        /\ action r s = set_updated false s).
Proof.
  intros B. unfold gatedAction. cbv zeta.
  destruct (decision_shape (xValue r) (yValue r) s)
    as (ax & ay & u & -> & RX & RY & U).
  rewrite controlButton_released by assumption.
  exists ax, ay. split; [ assumption | ]. split; [ assumption | ].
  cbn. destruct u.
  - left. split; [ now apply U | ].
    match goal with |- context [moveServos callAngle ?t] =>
      destruct (moveServos_shape callAngle t)
        as (ox & oy & -> & Hx & Hy & _ & _) end.
    exists ox, oy. cbn in *. auto.
  - right.
    assert (N : ~ (asksStep (_xMaxThresholdMin s) (_xMaxThresholdMax s)
                     (_xMinThreshold s) (xValue r)
                   \/ asksStep (_yMaxThresholdMin s) (_yMaxThresholdMax s)
                        (_yMinThreshold s) (yValue r))).
    { intros A. apply U in A. discriminate. }
    unfold asksStep in N. unfold stepRule in RX, RY.
    assert (ax = _xAngle s) as -> by (apply RX; lia).
    assert (ay = _yAngle s) as -> by (apply RY; lia).
    repeat split; assumption.
Qed.

(** A gated pass with the button pressed always reaches the actuation. *)
Lemma action_pressed r s :
  buttonState r = 0 ->
  action r s =
    moveServos callAngle
      (set_lastActionTime (currentTime r)
         (controlButton callButton 0
            (controlY (yValue r)
               (controlX (xValue r) (set_updated false s))))).
Proof.
  intros B. unfold gatedAction. cbv zeta. rewrite B.
  now rewrite controlButton_pressed_updated.
Qed.

Lemma decided_shape r s :
  exists ax ay u out,
    decided r s =
      set_effects (effects s ++ out)
        (set_updated u (set_yAngle ay (set_xAngle ax s)))
    /\ servoWrites out = []
    /\ stepRule (_xMaxThresholdMin s) (_xMaxThresholdMax s) (_xMinThreshold s)
         (_servoStep s) (_servoMinAngle s) (_servoMaxAngle s)
         (xValue r) (_xAngle s) ax
    /\ stepRule (_yMaxThresholdMin s) (_yMaxThresholdMax s) (_yMinThreshold s)
         (_servoStep s) (_servoMinAngle s) (_servoMaxAngle s)
         (yValue r) (_yAngle s) ay.
Proof.
  unfold decided.
  destruct (reportReadings_shape r s) as (out & -> & W).
  match goal with |- context [controlX _ (set_updated false ?t)] =>
    destruct (decision_shape (xValue r) (yValue r) t)
      as (ax & ay & u & -> & RX & RY & _) end.
  exists ax, ay, u, out. cbn in *. auto.
Qed.

Lemma tick_pressed r s :
  currentTime r - _lastActionTime s > 100 ->
  buttonState r = 0 ->
  tick r s =
    emit (Pause 50)
      (moveServos callAngle
         (set_lastActionTime (currentTime r)
            (controlButton callButton 0 (decided r s)))).
Proof.
  intros G B. rewrite forever_body_gated by assumption.
  now rewrite action_pressed.
Qed.

(** A gated pass with the button released, as assignments to the state. *)
Lemma tick_released_shape r s :
  currentTime r - _lastActionTime s > 100 ->
  buttonState r <> 0 ->
  exists ax ay out,
    stepRule (_xMaxThresholdMin s) (_xMaxThresholdMax s) (_xMinThreshold s)
      (_servoStep s) (_servoMinAngle s) (_servoMaxAngle s)
      (xValue r) (_xAngle s) ax
    /\ stepRule (_yMaxThresholdMin s) (_yMaxThresholdMax s) (_yMinThreshold s)
         (_servoStep s) (_servoMinAngle s) (_servoMaxAngle s)
         (yValue r) (_yAngle s) ay
    /\ ((passActs r s
         /\ tick r s =
              set_effects (effects s ++ out)
                (set_lastYAngle ay
                   (set_lastXAngle ax
                      (set_lastActionTime (currentTime r)
                         (set_updated true
                            (set_yAngle ay (set_xAngle ax s)))))))
        \/ (~ passActs r s
            /\ servoWrites out = []
            /\ tick r s = set_effects (effects s ++ out) (set_updated false s))).
Proof.
  intros G B. rewrite forever_body_gated by assumption.
  destruct (reportReadings_shape r s) as (o1 & -> & W).
  match goal with |- context [action r ?t] =>
    destruct (action_released_shape r t B)
      as (ax & ay & RX & RY
          & [(A & ox & oy & -> & _) | (A & EX & EY & ->)])
  end; cbn in *.
  - exists ax, ay, (o1 ++ ox ++ oy ++ [Pause 50]).
    split; [ assumption | ]. split; [ assumption | ]. left.
    split; [ unfold passActs; tauto | ].
    unfold emit. cbn. now rewrite <- !app_assoc.
  - exists ax, ay, (o1 ++ [Pause 50]).
    split; [ assumption | ]. split; [ assumption | ]. right.
    split; [ unfold passActs; tauto | ].
    split; [ rewrite servoWrites_app, W; reflexivity | ].
    unfold emit. cbn. now rewrite <- !app_assoc.
Qed.

(** C1. For each axis on its own, the decision block of a gated pass
    applies exactly one of three outcomes to the previous angle [a]: a
    reading in [(lowBand, highBand]] gives [min (a + step) angleMax];
    otherwise a reading below [minThreshold] gives [max (a - step) angleMin];
    otherwise, that is for a reading at or above [minThreshold] that is at
    most [lowBand] or above [highBand], the angle is unchanged.  The block
    of one axis leaves the angle of the other alone, and on a gated pass
    with the button released these are the angles the pass ends with. *)
Theorem axis_decision_rule :
  (forall v s,
     stepRule (_xMaxThresholdMin s) (_xMaxThresholdMax s) (_xMinThreshold s)
       (_servoStep s) (_servoMinAngle s) (_servoMaxAngle s)
       v (_xAngle s) (_xAngle (controlX v s))
     /\ _yAngle (controlX v s) = _yAngle s)
  /\ (forall v s,
        stepRule (_yMaxThresholdMin s) (_yMaxThresholdMax s) (_yMinThreshold s)
          (_servoStep s) (_servoMinAngle s) (_servoMaxAngle s)
          v (_yAngle s) (_yAngle (controlY v s))
        /\ _xAngle (controlY v s) = _xAngle s)
  /\ (forall r s,
        currentTime r - _lastActionTime s > 100 ->
        buttonState r <> 0 ->
        stepRule (_xMaxThresholdMin s) (_xMaxThresholdMax s) (_xMinThreshold s)
          (_servoStep s) (_servoMinAngle s) (_servoMaxAngle s)
          (xValue r) (_xAngle s) (_xAngle (tick r s))
        /\ stepRule (_yMaxThresholdMin s) (_yMaxThresholdMax s)
             (_yMinThreshold s)
             (_servoStep s) (_servoMinAngle s) (_servoMaxAngle s)
             (yValue r) (_yAngle s) (_yAngle (tick r s))).
Proof.
  split; [ | split ].
  - intros v s. split; [ apply controlX_stepRule | ].
    now destruct (controlX_cases v s)
      as [(? & ->) | [(? & ? & ->) | (? & ? & ->)]].
  - intros v s. split; [ apply controlY_stepRule | ].
    now destruct (controlY_cases v s)
      as [(? & ->) | [(? & ? & ->) | (? & ? & ->)]].
  - intros r s G B. rewrite forever_body_gated by assumption.
    destruct (reportReadings_shape r s) as (out & -> & _).
    match goal with |- context [action r ?t] =>
      destruct (action_released_shape r t B)
        as (ax & ay & RX & RY & [(_ & ox & oy & -> & _) | (_ & EX & EY & ->)])
    end; cbn in *; [ | subst ax ay ]; now split.
Qed.

(** C7. The gated part of a pass runs only when more than 100 ms have
    passed since the last action.  Otherwise the pass changes no variable,
    writes to no servo and calls no handler: it is the telemetry and the idle
    pause.  When the gate is open, the action time becomes the time of the
    pass exactly when the pass acts, that is when a reading asks for a step
    (whether or not the clamped angle moves) or the button reads pressed;
    otherwise the pass only clears the flag and keeps the action time. *)
Theorem gate_and_action_time r s :
  (currentTime r - _lastActionTime s <= 100 ->
   tick r s = emit (Pause 50) (reportReadings r s)
   /\ exists out,
        tick r s = set_effects (effects s ++ out ++ [Pause 50]) s
        /\ servoWrites out = [])
  /\ (currentTime r - _lastActionTime s > 100 ->
      passActs r s ->
      _lastActionTime (tick r s) = currentTime r)
  /\ (currentTime r - _lastActionTime s > 100 ->
      ~ passActs r s ->
      tick r s = emit (Pause 50) (set_updated false (reportReadings r s))
      /\ _lastActionTime (tick r s) = _lastActionTime s).
Proof.
  split; [ | split ].
  - intros G. rewrite forever_body_idle by assumption.
    split; [ reflexivity | ].
    destruct (reportReadings_shape r s) as (out & -> & W).
    exists out. split; [ | assumption ].
    unfold emit. cbn. now rewrite <- app_assoc.
  - intros G A. destruct (Z.eq_dec (buttonState r) 0) as [B | B].
    + rewrite tick_pressed by assumption.
      match goal with |- context [moveServos callAngle ?t] =>
        destruct (moveServos_shape callAngle t) as (ox & oy & -> & _) end.
      reflexivity.
    + destruct (tick_released_shape r s G B)
        as (ax & ay & out & _ & _ & [(_ & ->) | (N & _)]).
      * reflexivity.
      * contradiction.
  - intros G N.
    assert (B : buttonState r <> 0) by (unfold passActs in N; tauto).
    rewrite forever_body_gated by assumption.
    destruct (reportReadings_shape r s) as (o1 & -> & W1).
    match goal with |- context [action r ?t] =>
      destruct (action_released_shape r t B)
        as (bx & by' & _ & _ & [(A & _) | (_ & _ & _ & ->)]) end.
    + exfalso. apply N. unfold passActs. cbn in A. tauto.
    + split; reflexivity.
Qed.

(** A gated pass with the button pressed and no handler registered, as
    assignments to the state. *)
Lemma tick_pressed_default_shape r s :
  currentTime r - _lastActionTime s > 100 ->
  buttonState r = 0 ->
  _buttonPressedHandler s = None ->
  exists out,
    tick r s =
      set_effects (effects s ++ out)
        (set_lastYAngle (_servoInitAngle s)
           (set_lastXAngle (_servoInitAngle s)
              (set_lastActionTime (currentTime r)
                 (set_updated true
                    (set_yAngle (_servoInitAngle s)
                       (set_xAngle (_servoInitAngle s) s)))))).
Proof.
  intros G B H. rewrite tick_pressed by assumption.
  destruct (decided_shape r s) as (ax & ay & u & o1 & -> & _).
  match goal with |- context [controlButton callButton 0 ?t] =>
    destruct (controlButton_default t H) as (o2 & -> & _) end.
  match goal with |- context [moveServos callAngle ?t] =>
    destruct (moveServos_shape callAngle t) as (ox & oy & -> & _) end.
  exists (o1 ++ o2 ++ ox ++ oy ++ [Pause 50]).
  unfold emit. cbn. now rewrite <- !app_assoc.
Qed.

Lemma held_default rs :
  forall s,
    rs <> [] ->
    gatedEach (_lastActionTime s) rs ->
    Forall (fun r => buttonState r = 0) rs ->
    _buttonPressedHandler s = None ->
    _xAngle (forever callButton callAngle rs s) = _servoInitAngle s
    /\ _yAngle (forever callButton callAngle rs s) = _servoInitAngle s.
Proof.
  induction rs as [ | r rs IH ]; intros s NE G P H; [ congruence | ].
  destruct G as (G & Gs). inversion P as [ | ? ? B Ps ]; subst.
  destruct (tick_pressed_default_shape r s G B H) as (out & E).
  cbn [forever]. destruct rs as [ | r' rs' ].
  - cbn [forever]. rewrite E. now split.
  - destruct (IH (tick r s)) as (IX & IY).
    + discriminate.
    + now rewrite E.
    + assumption.
    + now rewrite E.
    + rewrite IX, IY, E. now split.
Qed.

(** C5. On every gated pass on which the button reads pressed (0, the
    input being pulled up), the registered button handler is run on the
    state the axis blocks left; with no handler registered both current
    angles become the initial angle.  Nothing remembers the previous level
    of the button, so this happens again on every such pass while the button
    is held. *)
Theorem button_is_level_triggered :
  (forall r s,
     currentTime r - _lastActionTime s > 100 ->
     buttonState r = 0 ->
     match _buttonPressedHandler s with
     | Some h =>
         let sh := callButton h (decided r s) in
         exists out,
           tick r s =
             emit (Pause 50)
               (moveServos callAngle
                  (set_lastActionTime (currentTime r)
                     (set_effects (effects sh ++ out) (set_updated true sh))))
           /\ servoWrites out = []
     | None =>
         _xAngle (tick r s) = _servoInitAngle s
         /\ _yAngle (tick r s) = _servoInitAngle s
     end)
  /\ (forall rs s,
        rs <> [] ->
        gatedEach (_lastActionTime s) rs ->
        Forall (fun r => buttonState r = 0) rs ->
        _buttonPressedHandler s = None ->
        _xAngle (forever callButton callAngle rs s) = _servoInitAngle s
        /\ _yAngle (forever callButton callAngle rs s) = _servoInitAngle s).
Proof.
  split; [ | intros rs s; apply held_default ].
  intros r s G B. destruct (_buttonPressedHandler s) as [ h | ] eqn:H.
  - cbv zeta. rewrite tick_pressed by assumption.
    assert (Hd : _buttonPressedHandler (decided r s) = Some h).
    { destruct (decided_shape r s) as (ax & ay & u & o1 & -> & _).
      exact H. }
    destruct (controlButton_handler (decided r s) Hd) as (out & -> & W).
    now exists out.
  - destruct (tick_pressed_default_shape r s G B H) as (out & ->).
    now split.
Qed.

(** C10. On a gated pass with the button pressed and a handler registered
    the default return to the initial angle is not applied: the pass ends
    with the angles the handler left.  The pass counts as acted all the
    same: the action time becomes the time of the pass and the actuation
    pass runs, issuing nothing when neither angle differs from its last
    commanded value. *)
Theorem pressed_with_handler_still_acts r s h :
  currentTime r - _lastActionTime s > 100 ->
  buttonState r = 0 ->
  _buttonPressedHandler s = Some h ->
  let sh := callButton h (decided r s) in
  _xAngle (tick r s) = _xAngle sh
  /\ _yAngle (tick r s) = _yAngle sh
  /\ _lastActionTime (tick r s) = currentTime r
  /\ exists out,
       servoWrites out = []
       /\ tick r s =
            emit (Pause 50)
              (moveServos callAngle
                 (set_lastActionTime (currentTime r)
                    (set_effects (effects sh ++ out) (set_updated true sh))))
       /\ (_xAngle sh = _lastXAngle sh ->
           _yAngle sh = _lastYAngle sh ->
           tick r s =
             set_effects (effects sh ++ out ++ [Pause 50])
               (set_lastActionTime (currentTime r) (set_updated true sh))).
Proof.
  intros G B H. cbv zeta. rewrite tick_pressed by assumption.
  assert (Hd : _buttonPressedHandler (decided r s) = Some h).
  { destruct (decided_shape r s) as (ax & ay & u & o1 & -> & _).
    exact H. }
  destruct (controlButton_handler (decided r s) Hd) as (out & -> & W).
  set (sh := callButton h (decided r s)).
  match goal with |- context [moveServos callAngle ?t] =>
    destruct (moveServos_shape callAngle t)
      as (ox & oy & E & _ & _ & Nx & Ny) end.
  cbn in Nx, Ny.
  split; [ now rewrite E | ]. split; [ now rewrite E | ].
  split; [ now rewrite E | ].
  exists out. split; [ assumption | ]. split; [ reflexivity | ].
  intros EX EY. rewrite E, (Nx EX), (Ny EY). unfold emit. cbn.
  rewrite EX, EY. rewrite !app_nil_r, <- app_assoc.
  reflexivity.
Qed.

(** One acting pass with the button released, seen from the X axis. *)
Lemma tick_step_x r s :
  currentTime r - _lastActionTime s > 100 ->
  buttonState r <> 0 ->
  asksStep (_xMaxThresholdMin s) (_xMaxThresholdMax s) (_xMinThreshold s)
    (xValue r) ->
  stepRule (_xMaxThresholdMin s) (_xMaxThresholdMax s) (_xMinThreshold s)
    (_servoStep s) (_servoMinAngle s) (_servoMaxAngle s)
    (xValue r) (_xAngle s) (_xAngle (tick r s))
  /\ _lastActionTime (tick r s) = currentTime r
  /\ _servoMinAngle (tick r s) = _servoMinAngle s
  /\ _servoMaxAngle (tick r s) = _servoMaxAngle s
  /\ _servoStep (tick r s) = _servoStep s
  /\ _xMaxThresholdMin (tick r s) = _xMaxThresholdMin s
  /\ _xMaxThresholdMax (tick r s) = _xMaxThresholdMax s
  /\ _xMinThreshold (tick r s) = _xMinThreshold s.
Proof.
  intros G B A.
  destruct (tick_released_shape r s G B)
    as (ax & ay & out & RX & _ & [(_ & ->) | (N & _)]).
  - cbn. split; [ exact RX | repeat split ].
  - exfalso. apply N. now left.
Qed.

(** C8. With limits 0..180 and step 15, X band (760, 780] and X decrease
    trigger 250, the X angle at 90, the button released and the gate open
    at each pass, the X readings 770, 770, 200 take the X angle to 105, then
    120, then back to 105. *)
Theorem scenario_x_770_770_200 r1 r2 r3 s :
  _servoMinAngle s = 0 -> _servoMaxAngle s = 180 -> _servoStep s = 15 ->
  _xMaxThresholdMin s = 760 -> _xMaxThresholdMax s = 780 ->
  _xMinThreshold s = 250 ->
  _xAngle s = 90 ->
  xValue r1 = 770 -> xValue r2 = 770 -> xValue r3 = 200 ->
  buttonState r1 <> 0 -> buttonState r2 <> 0 -> buttonState r3 <> 0 ->
  gatedEach (_lastActionTime s) [r1; r2; r3] ->
  _xAngle (forever callButton callAngle [r1] s) = 105
  /\ _xAngle (forever callButton callAngle [r1; r2] s) = 120
  /\ _xAngle (forever callButton callAngle [r1; r2; r3] s) = 105.
Proof.
  intros Hmin Hmax Hstep Hlo Hhi Hmn Hx V1 V2 V3 B1 B2 B3 (G1 & G2 & G3 & _).
  cbn [forever].
  destruct (tick_step_x r1 s G1 B1)
    as ((I1 & _) & T1 & M1 & X1 & S1 & L1 & H1 & N1).
  { unfold asksStep. lia. }
  set (s1 := tick r1 s) in *.
  assert (A1 : _xAngle s1 = 105) by (rewrite I1; lia).
  destruct (tick_step_x r2 s1)
    as ((I2 & _) & T2 & M2 & X2 & S2 & L2 & H2 & N2).
  { lia. } { assumption. } { unfold asksStep. lia. }
  set (s2 := tick r2 s1) in *.
  assert (A2 : _xAngle s2 = 120) by (rewrite I2; lia).
  destruct (tick_step_x r3 s2) as ((_ & D3 & _) & _).
  { lia. } { assumption. } { unfold asksStep. lia. }
  repeat split; try assumption.
  rewrite D3; lia.
Qed.

(** ** The range invariant *)

Lemma stepRule_range lo hi mn step amin amax v a a' :
  stepRule lo hi mn step amin amax v a a' ->
  0 < step -> amin <= a <= amax -> amin <= a' <= amax.
Proof.
  intros (R1 & R2 & R3) S A.
  destruct (Z_lt_dec lo v); [ destruct (Z_le_dec v hi) | ];
    try (rewrite R1 by lia; lia);
    (destruct (Z_lt_dec v mn); [ rewrite R2 by lia | rewrite R3 by lia ]; lia).
Qed.

Section RangeInvariant.

(** User handlers are arbitrary code; the invariant can only be kept if
    the button handler itself keeps it, as one does that changes the angles
    and limits through the exported functions with limits in order. *)
Hypothesis handler_keeps_range :
  forall h s,
    limitsOk s -> inRange s ->
    limitsOk (callButton h s) /\ inRange (callButton h s).

Lemma decided_keeps_range r s :
  limitsOk s -> inRange s -> limitsOk (decided r s) /\ inRange (decided r s).
Proof.
  intros L (IX & IY).
  destruct (decided_shape r s) as (ax & ay & u & o1 & -> & _ & RX & RY).
  destruct L as (L1 & L2).
  pose proof (stepRule_range RX L2 IX).
  pose proof (stepRule_range RY L2 IY).
  unfold limitsOk, inRange. cbn. auto.
Qed.

Lemma tick_keeps_range r s :
  limitsOk s -> inRange s -> limitsOk (tick r s) /\ inRange (tick r s).
Proof.
  intros L I.
  destruct (Z_le_gt_dec (currentTime r - _lastActionTime s) 100) as [G | G].
  - rewrite forever_body_idle by assumption.
    destruct (reportReadings_shape r s) as (out & -> & _).
    unfold limitsOk, inRange in *. cbn. auto.
  - destruct (Z.eq_dec (buttonState r) 0) as [B | B].
    + rewrite tick_pressed by assumption.
      destruct (decided_keeps_range r L I) as (Ld & Id).
      assert (K : limitsOk (controlButton callButton 0 (decided r s))
                  /\ inRange (controlButton callButton 0 (decided r s))).
      { destruct (_buttonPressedHandler (decided r s)) as [ h | ] eqn:H.
        - destruct (controlButton_handler _ H) as (o2 & -> & _).
          destruct (handler_keeps_range h Ld Id) as (Lh & Ih).
          unfold limitsOk, inRange in *. cbn. auto.
        - destruct (controlButton_default _ H) as (o2 & -> & _).
          unfold limitsOk, inRange in *. cbn. intuition lia. }
      destruct K as (Lb & Ib).
      match goal with |- context [moveServos callAngle ?t] =>
        destruct (moveServos_shape callAngle t) as (ox & oy & -> & _) end.
      unfold limitsOk, inRange in *. cbn. auto.
    + destruct (tick_released_shape r s G B)
        as (ax & ay & out & RX & RY & [(_ & ->) | (_ & _ & ->)]).
      * destruct L as (L1 & L2). destruct I as (IX & IY).
        pose proof (stepRule_range RX L2 IX).
        pose proof (stepRule_range RY L2 IY).
        unfold limitsOk, inRange. cbn. auto.
      * unfold limitsOk, inRange in *. cbn. auto.
Qed.

Lemma forever_keeps_range rs :
  forall s,
    limitsOk s -> inRange s ->
    limitsOk (forever callButton callAngle rs s)
    /\ inRange (forever callButton callAngle rs s).
Proof.
  induction rs as [ | r rs IH ]; intros s L I; cbn [forever].
  - now split.
  - destruct (tick_keeps_range r L I). now apply IH.
Qed.

Lemma init_in_range jx jy b sx sy s :
  limitsOk s ->
  limitsOk (init jx jy b sx sy s) /\ inRange (init jx jy b sx sy s).
Proof.
  intros L. unfold init, startMainLoop. cbv zeta.
  match goal with |- context [if ?c then _ else _] => destruct c end;
    unfold limitsOk, inRange in *; cbn; intuition lia.
Qed.

(** C2. Under the configuration invariant [angleMin <= angleInit <=
    angleMax] with a positive step, both current angles are within
    [[angleMin, angleMax]] after any number of passes of the loop, from
    any state in which they are, in particular from the state [init]
    leaves.  The clamp is idempotent at the bounds: an increase at
    [angleMax] leaves the angle at [angleMax] and a decrease at [angleMin]
    leaves it at [angleMin]. *)
Theorem angles_stay_in_range :
  (forall rs s,
     limitsOk s -> inRange s -> inRange (forever callButton callAngle rs s))
  /\ (forall rs jx jy b sx sy s,
        limitsOk s ->
        inRange (forever callButton callAngle rs (init jx jy b sx sy s)))
  /\ (forall v s,
        0 < _servoStep s ->
        _xMaxThresholdMin s < v <= _xMaxThresholdMax s ->
        _xAngle s = _servoMaxAngle s ->
        _xAngle (controlX v s) = _servoMaxAngle s)
  /\ (forall v s,
        0 < _servoStep s ->
        ~ _xMaxThresholdMin s < v <= _xMaxThresholdMax s ->
        v < _xMinThreshold s ->
        _xAngle s = _servoMinAngle s ->
        _xAngle (controlX v s) = _servoMinAngle s)
  /\ (forall v s,
        0 < _servoStep s ->
        _yMaxThresholdMin s < v <= _yMaxThresholdMax s ->
        _yAngle s = _servoMaxAngle s ->
        _yAngle (controlY v s) = _servoMaxAngle s)
  /\ (forall v s,
        0 < _servoStep s ->
        ~ _yMaxThresholdMin s < v <= _yMaxThresholdMax s ->
        v < _yMinThreshold s ->
        _yAngle s = _servoMinAngle s ->
        _yAngle (controlY v s) = _servoMinAngle s).
Proof.
  split; [ | split; [ | split; [ | split; [ | split ] ] ] ].
  - intros rs s L I. now apply forever_keeps_range.
  - intros rs jx jy b sx sy s L.
    destruct (init_in_range jx jy b sx sy L). now apply forever_keeps_range.
  - intros v s S A E.
    destruct (controlX_stepRule v s) as (R & _). rewrite R by assumption. lia.
  - intros v s S N A E.
    destruct (controlX_stepRule v s) as (_ & R & _).
    rewrite R by assumption. lia.
  - intros v s S A E.
    destruct (controlY_stepRule v s) as (R & _). rewrite R by assumption. lia.
  - intros v s S N A E.
    destruct (controlY_stepRule v s) as (_ & R & _).
    rewrite R by assumption. lia.
Qed.

End RangeInvariant.

End Loop.

(** ** Configuration and manual control *)

Section Exported.

Variables BH AH : Type.
Variable callAngle : AH -> Z -> Z -> State BH AH -> State BH AH.

Implicit Type s : State BH AH.

Lemma constrain_range value low high :
  low <= high -> low <= Math.constrain value low high <= high.
Proof.
  intros H. unfold Math.constrain. rewrite Z.gtb_ltb.
  destruct (Z.ltb_spec value low); [ lia | ].
  destruct (Z.ltb_spec high value); lia.
Qed.

Lemma setServoLimits_shape minAngle maxAngle initAngle step s :
  exists out,
    setServoLimits minAngle maxAngle initAngle step s =
      set_effects (effects s ++ out)
        (set_yAngle initAngle
           (set_xAngle initAngle
              (set_limits minAngle maxAngle initAngle step s)))
    /\ servoWrites out = [].
Proof.
  unfold setServoLimits. cbn. destruct (_debugMode s).
  - eexists. split; reflexivity.
  - exists []. cbn. now rewrite app_nil_r.
Qed.

(** Logging an effect touches neither limits nor angles. *)
Lemma emit_limitsOk e s : limitsOk s -> limitsOk (emit e s).
Proof. exact (fun L => L). Qed.

Lemma emit_inRange e s : inRange s -> inRange (emit e s).
Proof. exact (fun I => I). Qed.

(** The exported functions that touch angles or limits keep the range
    invariant, given limits in order. *)
Lemma setServoLimits_keeps_range minAngle maxAngle initAngle step s :
  minAngle <= initAngle <= maxAngle -> 0 < step ->
  limitsOk (setServoLimits minAngle maxAngle initAngle step s)
  /\ inRange (setServoLimits minAngle maxAngle initAngle step s).
Proof.
  intros L S.
  destruct (setServoLimits_shape minAngle maxAngle initAngle step s)
    as (out & -> & _).
  unfold limitsOk, inRange. cbn. lia.
Qed.

Lemma setServoAngles_keeps_range xAngle yAngle s :
  limitsOk s ->
  limitsOk (setServoAngles callAngle xAngle yAngle s)
  /\ inRange (setServoAngles callAngle xAngle yAngle s).
Proof.
  intros L. unfold setServoAngles. cbv zeta.
  match goal with |- context [moveServos callAngle ?t] =>
    destruct (moveServos_shape callAngle t) as (ox & oy & -> & _) end.
  unfold limitsOk, inRange in *. cbn.
  pose proof (@constrain_range xAngle (_servoMinAngle s) (_servoMaxAngle s)).
  pose proof (@constrain_range yAngle (_servoMinAngle s) (_servoMaxAngle s)).
  intuition lia.
Qed.

Lemma resetServos_keeps_range s :
  limitsOk s ->
  limitsOk (resetServos callAngle s) /\ inRange (resetServos callAngle s).
Proof.
  intros L. unfold resetServos. cbv zeta.
  match goal with |- context [moveServos callAngle ?t] =>
    destruct (moveServos_shape callAngle t) as (ox & oy & -> & _) end.
  unfold limitsOk, inRange in *. cbn. intuition lia.
Qed.

(** C6. [setServoLimits] overwrites the four limit variables and at once
    sets both current angles to the new initial angle.  It issues no servo
    write itself and leaves the last commanded angles alone, so the next
    actuation pass writes the new angle to each servo whose last commanded
    angle differs from it. *)
Theorem setServoLimits_recenters minAngle maxAngle initAngle step s :
  let s' := setServoLimits minAngle maxAngle initAngle step s in
  _servoMinAngle s' = minAngle
  /\ _servoMaxAngle s' = maxAngle
  /\ _servoInitAngle s' = initAngle
  /\ _servoStep s' = step
  /\ _xAngle s' = initAngle
  /\ _yAngle s' = initAngle
  /\ _lastXAngle s' = _lastXAngle s
  /\ _lastYAngle s' = _lastYAngle s
  /\ (exists out, effects s' = effects s ++ out /\ servoWrites out = [])
  /\ exists outX outY,
       effects (moveServos callAngle s') = effects s' ++ outX ++ outY
       /\ servoWrites outX =
            (if neq initAngle (_lastXAngle s)
             then [(_servoXPin s, initAngle)] else [])
       /\ servoWrites outY =
            (if neq initAngle (_lastYAngle s)
             then [(_servoYPin s, initAngle)] else []).
Proof.
  cbv zeta.
  destruct (setServoLimits_shape minAngle maxAngle initAngle step s)
    as (out & E & W).
  rewrite E. cbn.
  do 8 (split; [ reflexivity | ]).
  split; [ now exists out | ].
  match goal with |- context [moveServos callAngle ?t] =>
    destruct (moveServos_shape callAngle t)
      as (ox & oy & -> & Hx & Hy & _) end.
  exists ox, oy. cbn in *. auto.
Qed.


End Exported.

(** * Worked cases *)

(** C1, the rule as worded fails: with the decrease trigger at 1000, above
    the band (760, 780], a reading of 900 is above the band and yet takes the
    X angle from 90 down to 75 on a gated pass with the button released. *)
Lemma reading_above_band_decreases :
  currentTime (passAbove 200) - _lastActionTime triggerAboveBand > 100
  /\ buttonState (passAbove 200) <> 0
  /\ xValue (passAbove 200) > _xMaxThresholdMax triggerAboveBand
  /\ _xAngle triggerAboveBand = 90
  /\ _xAngle (pass (passAbove 200) triggerAboveBand) = 75
  /\ ~ stepRuleAsWorded
         (_xMaxThresholdMin triggerAboveBand)
         (_xMaxThresholdMax triggerAboveBand)
         (_xMinThreshold triggerAboveBand)
         (_servoStep triggerAboveBand)
         (_servoMinAngle triggerAboveBand)
         (_servoMaxAngle triggerAboveBand)
         (xValue (passAbove 200))
         (_xAngle triggerAboveBand)
         (_xAngle (pass (passAbove 200) triggerAboveBand)).
Proof.
  assert (E : _xAngle (pass (passAbove 200) triggerAboveBand) = 75)
    by (vm_compute; reflexivity).
  repeat split; try (vm_compute; congruence).
  intros (_ & _ & R). rewrite E in R.
  assert (C : (75 : Z) = 90) by (apply R; vm_compute; right; reflexivity).
  discriminate C.
Qed.

(** C1, the rule at work: from the initial state a reading of 770 on a
    gated pass with the button released gives [min (90 + 15) 180]. *)
Lemma axis_decision_rule_witness :
  currentTime (passUp 200) - _lastActionTime ready > 100
  /\ buttonState (passUp 200) <> 0
  /\ _xAngle (pass (passUp 200) ready) = Z.min (90 + 15) 180.
Proof.
  assert (G : currentTime (passUp 200) - _lastActionTime ready > 100)
    by (vm_compute; reflexivity).
  assert (B : buttonState (passUp 200) <> 0) by (vm_compute; discriminate).
  split; [ exact G | ]. split; [ exact B | ].
  destruct (axis_decision_rule readmeButtonHandler readmeAngleHandler)
    as (_ & _ & T).
  destruct (T (passUp 200) ready G B) as ((R & _) & _).
  apply R. vm_compute. split; [ reflexivity | discriminate ].
Defined.

(** C7, the rule as worded fails: at the upper limit a reading of 770
    asks for a step that the clamp absorbs, so neither angle changes and the
    button is released, yet the pass acts and the action time goes from 0 to
    the time of the pass. *)
Lemma clamped_step_updates_action_time :
  currentTime (passUp 200) - _lastActionTime atUpperLimit > 100
  /\ buttonState (passUp 200) <> 0
  /\ _xAngle (pass (passUp 200) atUpperLimit) = _xAngle atUpperLimit
  /\ _yAngle (pass (passUp 200) atUpperLimit) = _yAngle atUpperLimit
  /\ _lastActionTime atUpperLimit = 0
  /\ _lastActionTime (pass (passUp 200) atUpperLimit) = 200
  /\ ~ actionTimeRuleAsWorded (passUp 200) atUpperLimit
         (pass (passUp 200) atUpperLimit).
Proof.
  split; [ vm_compute; reflexivity | ].
  split; [ vm_compute; discriminate | ].
  split; [ vm_compute; reflexivity | ].
  split; [ vm_compute; reflexivity | ].
  split; [ vm_compute; reflexivity | ].
  split; [ vm_compute; reflexivity | ].
  intros (R & _).
  assert (T : _lastActionTime (pass (passUp 200) atUpperLimit)
              = currentTime (passUp 200)) by (vm_compute; reflexivity).
  destruct (R T) as [C | [C | C]].
  - apply C. vm_compute. reflexivity.
  - apply C. vm_compute. reflexivity.
  - discriminate C.
Qed.

(** C7, the rule at work on the same pass: the reading asks for a step, so
    the action time is the time of the pass. *)
Lemma gate_and_action_time_witness :
  currentTime (passUp 200) - _lastActionTime atUpperLimit > 100
  /\ passActs (passUp 200) atUpperLimit
  /\ _lastActionTime (pass (passUp 200) atUpperLimit) = currentTime (passUp 200).
Proof.
  assert (G : currentTime (passUp 200) - _lastActionTime atUpperLimit > 100)
    by (vm_compute; reflexivity).
  assert (A : passActs (passUp 200) atUpperLimit).
  { left. left. vm_compute. split; [ reflexivity | discriminate ]. }
  split; [ exact G | ]. split; [ exact A | ].
  exact (proj1 (proj2 (gate_and_action_time readmeButtonHandler
                         readmeAngleHandler (passUp 200) atUpperLimit)) G A).
Defined.


(** C5 with nothing registered: after a step up to 105, a pressed pass
    brings the X angle back to the initial 90. *)
Lemma button_is_level_triggered_witness :
  currentTime (passPressed 400)
    - _lastActionTime (pass (passUp 200) ready) > 100
  /\ buttonState (passPressed 400) = 0
  /\ _buttonPressedHandler (pass (passUp 200) ready) = None
  /\ _xAngle (pass (passUp 200) ready) = 105
  /\ _xAngle (pass (passPressed 400) (pass (passUp 200) ready)) = 90.
Proof.
  assert (G : currentTime (passPressed 400)
              - _lastActionTime (pass (passUp 200) ready) > 100)
    by (vm_compute; reflexivity).
  assert (B : buttonState (passPressed 400) = 0) by reflexivity.
  assert (H : _buttonPressedHandler (pass (passUp 200) ready) = None)
    by (vm_compute; reflexivity).
  split; [ exact G | ]. split; [ exact B | ]. split; [ exact H | ].
  split; [ vm_compute; reflexivity | ].
  pose proof (proj1 (button_is_level_triggered readmeButtonHandler
                       readmeAngleHandler)
                (passPressed 400) (pass (passUp 200) ready) G B) as T.
  rewrite H in T. destruct T as (T & _).
  etransitivity; [ exact T | vm_compute; reflexivity ].
Defined.

(** C8 on the initialised board, passes at 200, 400 and 600 ms. *)
Lemma scenario_x_770_770_200_witness :
  gatedEach (_lastActionTime ready) [passUp 200; passUp 400; passDown 600]
  /\ _xAngle (passes [passUp 200] ready) = 105
  /\ _xAngle (passes [passUp 200; passUp 400] ready) = 120
  /\ _xAngle (passes [passUp 200; passUp 400; passDown 600] ready) = 105.
Proof.
  assert (G : gatedEach (_lastActionTime ready)
                [passUp 200; passUp 400; passDown 600])
    by (vm_compute; repeat split; reflexivity).
  split; [ exact G | ].
  apply (@scenario_x_770_770_200 unit unit readmeButtonHandler
           readmeAngleHandler (passUp 200) (passUp 400) (passDown 600) ready);
    try reflexivity; try (vm_compute; discriminate); exact G.
Defined.


(** C10 with the README's handlers registered: the pressed pass runs the
    handler and takes the time of the pass as the action time. *)
Lemma pressed_with_handler_still_acts_witness :
  currentTime (passPressed 200) - _lastActionTime readyWithHandlers > 100
  /\ buttonState (passPressed 200) = 0
  /\ _buttonPressedHandler readyWithHandlers = Some tt
  /\ _xAngle (pass (passPressed 200) readyWithHandlers)
     = _xAngle (readmeButtonHandler tt
                  (decided (passPressed 200) readyWithHandlers))
  /\ _lastActionTime (pass (passPressed 200) readyWithHandlers) = 200.
Proof.
  assert (G : currentTime (passPressed 200)
              - _lastActionTime readyWithHandlers > 100)
    by (vm_compute; reflexivity).
  assert (B : buttonState (passPressed 200) = 0) by reflexivity.
  assert (H : _buttonPressedHandler readyWithHandlers = Some tt)
    by reflexivity.
  split; [ exact G | ]. split; [ exact B | ]. split; [ exact H | ].
  destruct (@pressed_with_handler_still_acts unit unit readmeButtonHandler
              readmeAngleHandler (passPressed 200) readyWithHandlers tt G B H)
    as (EX & _ & T & _).
  split; [ exact EX | exact T ].
Defined.

(** C2 with the README's handlers: the button handler resets the servos,
    which keeps the invariant, and a run that steps, presses and steps again
    ends in range. *)
Lemma angles_stay_in_range_witness :
  (forall h s,
     limitsOk s -> inRange s ->
     limitsOk (readmeButtonHandler h s) /\ inRange (readmeButtonHandler h s))
  /\ limitsOk readyWithHandlers
  /\ inRange readyWithHandlers
  /\ inRange (passes [passUp 200; passPressed 400; passDown 600; passDown 800]
                readyWithHandlers).
Proof.
  assert (K : forall h s,
            limitsOk s -> inRange s ->
            limitsOk (readmeButtonHandler h s)
            /\ inRange (readmeButtonHandler h s)).
  { intros h s L _.
    destruct (resetServos_keeps_range readmeAngleHandler L) as (L' & I').
    unfold readmeButtonHandler.
    split; [ now apply emit_limitsOk | now apply emit_inRange ]. }
  assert (L : limitsOk readyWithHandlers)
    by (vm_compute; repeat split; discriminate).
  assert (I : inRange readyWithHandlers)
    by (vm_compute; repeat split; discriminate).
  split; [ exact K | ]. split; [ exact L | ]. split; [ exact I | ].
  exact (proj1 (@angles_stay_in_range unit unit readmeButtonHandler
                  readmeAngleHandler K) _ _ L I).
Defined.

(** * Further properties of the code *)


Section Further.

Variables BH AH : Type.
Variable callButton : BH -> State BH AH -> State BH AH.
Variable callAngle : AH -> Z -> Z -> State BH AH -> State BH AH.

Implicit Type s : State BH AH.
Implicit Type r : Readings.

Local Abbreviation tick := (forever_body callButton callAngle).
Local Abbreviation action := (gatedAction callButton callAngle).




(** A gated pass with the button pressed and no handler registered. *)
Lemma action_pressed_default_shape r s :
  buttonState r = 0 ->
  _buttonPressedHandler s = None ->
  exists o2 outX outY,
    action r s =
      set_effects (effects s ++ o2 ++ outX ++ outY)
        (set_lastYAngle (_servoInitAngle s)
           (set_lastXAngle (_servoInitAngle s)
              (set_lastActionTime (currentTime r)
                 (set_updated true
                    (set_yAngle (_servoInitAngle s)
                       (set_xAngle (_servoInitAngle s) s))))))
    /\ servoWrites o2 = []
    /\ servoWrites outX =
         (if neq (_servoInitAngle s) (_lastXAngle s)
          then [(_servoXPin s, _servoInitAngle s)] else [])
    /\ servoWrites outY =
         (if neq (_servoInitAngle s) (_lastYAngle s)
          then [(_servoYPin s, _servoInitAngle s)] else []).
Proof.
  intros B H. rewrite action_pressed by assumption.
  destruct (decision_shape (xValue r) (yValue r) s)
    as (ax & ay & u & -> & _).
  match goal with |- context [controlButton callButton 0 ?t] =>
    destruct (controlButton_default callButton t H) as (o2 & -> & W2) end.
  match goal with |- context [moveServos callAngle ?t] =>
    destruct (moveServos_shape callAngle t)
      as (ox & oy & -> & Hx & Hy & _) end.
  exists o2, ox, oy. cbn in *. rewrite <- app_assoc. auto.
Qed.

(** What a pass in which no handler runs does: it rests (closed gate, or
    nothing asks for action), touching only the flag and the log and writing
    to no servo; or it acts, ending on angles [x'], [y'] that are the stepped
    angles (button released) or the initial angle (button pressed), with the
    last commanded angles brought to them and a servo write for each that
    differed. *)
Lemma pass_no_handler r s :
  noHandlerRuns r s ->
  exists out,
    ((currentTime r - _lastActionTime s <= 100 \/ ~ passActs r s)
     /\ servoWrites out = []
     /\ exists u, tick r s = set_effects (effects s ++ out) (set_updated u s))
    \/
    (currentTime r - _lastActionTime s > 100
     /\ passActs r s
     /\ exists x' y',
          tick r s =
            set_effects (effects s ++ out)
              (set_lastYAngle y'
                 (set_lastXAngle x'
                    (set_lastActionTime (currentTime r)
                       (set_updated true
                          (set_yAngle y' (set_xAngle x' s))))))
          /\ servoWrites out =
               (if neq x' (_lastXAngle s) then [(_servoXPin s, x')] else [])
               ++ (if neq y' (_lastYAngle s) then [(_servoYPin s, y')] else [])
          /\ ((buttonState r <> 0
               /\ stepRule (_xMaxThresholdMin s) (_xMaxThresholdMax s)
                    (_xMinThreshold s) (_servoStep s) (_servoMinAngle s)
                    (_servoMaxAngle s) (xValue r) (_xAngle s) x'
               /\ stepRule (_yMaxThresholdMin s) (_yMaxThresholdMax s)
                    (_yMinThreshold s) (_servoStep s) (_servoMinAngle s)
                    (_servoMaxAngle s) (yValue r) (_yAngle s) y')
              \/ (buttonState r = 0
                  /\ x' = _servoInitAngle s /\ y' = _servoInitAngle s))).
Proof.
  intros N.
  destruct (Z_le_gt_dec (currentTime r - _lastActionTime s) 100) as [G | G].
  - rewrite forever_body_idle by assumption.
    destruct (reportReadings_shape r s) as (o1 & -> & W1).
    exists (o1 ++ [Pause 50]). left. split; [ now left | ].
    split; [ now rewrite servoWrites_app, W1 | ].
    exists (_updated s). unfold emit. cbn. rewrite <- app_assoc.
    now destruct s.
  - rewrite forever_body_gated by assumption.
    destruct (reportReadings_shape r s) as (o1 & -> & W1).
    destruct (Z.eq_dec (buttonState r) 0) as [B | B].
    + destruct N as [N | N]; [ contradiction | ].
      match goal with |- context [action r ?t] =>
        destruct (action_pressed_default_shape r t B N)
          as (o2 & ox & oy & -> & W2 & Wx & Wy) end.
      exists (o1 ++ o2 ++ ox ++ oy ++ [Pause 50]). right.
      split; [ assumption | ].
      split; [ unfold passActs; tauto | ].
      exists (_servoInitAngle s), (_servoInitAngle s). cbn in *.
      split; [ unfold emit; cbn; now rewrite <- !app_assoc | ].
      split; [ | now right ].
      rewrite !servoWrites_app, W1, W2, Wx, Wy. cbn.
      now rewrite app_nil_r.
    + match goal with |- context [action r ?t] =>
        destruct (action_released_shape callButton callAngle r t B)
          as (ax & ay & RX & RY
              & [(A & ox & oy & -> & Wx & Wy) | (A & EX & EY & ->)]) end;
        cbn in *.
      * exists (o1 ++ ox ++ oy ++ [Pause 50]). right.
        split; [ assumption | ].
        split; [ unfold passActs; tauto | ].
        exists ax, ay.
        split; [ unfold emit; cbn; now rewrite <- !app_assoc | ].
        split; [ | left; split; [ assumption | split; assumption ] ].
        rewrite !servoWrites_app, W1, Wx, Wy. cbn.
        now rewrite app_nil_r.
      * exists (o1 ++ [Pause 50]). left.
        split; [ right; unfold passActs; tauto | ].
        split; [ now rewrite servoWrites_app, W1 | ].
        exists false. unfold emit. cbn. now rewrite <- app_assoc.
Qed.

(** X1. In a pass in which no handler runs, the servo writes are decided
    by the angles the pass ends with: a resting pass (closed gate, or nothing
    asking for action) writes to no servo and keeps angles, last commanded
    angles and action time; an acting pass writes, X before Y, the final
    angle of each axis whose final angle differs from its last commanded
    one, and nothing else to the servos. *)
Theorem pass_servo_writes r s :
  noHandlerRuns r s ->
  exists out,
    effects (tick r s) = effects s ++ out
    /\ (currentTime r - _lastActionTime s <= 100 \/ ~ passActs r s ->
        servoWrites out = []
        /\ _xAngle (tick r s) = _xAngle s
        /\ _yAngle (tick r s) = _yAngle s
        /\ _lastXAngle (tick r s) = _lastXAngle s
        /\ _lastYAngle (tick r s) = _lastYAngle s
        /\ _lastActionTime (tick r s) = _lastActionTime s)
    /\ (currentTime r - _lastActionTime s > 100 -> passActs r s ->
        servoWrites out =
          (if neq (_xAngle (tick r s)) (_lastXAngle s)
           then [(_servoXPin s, _xAngle (tick r s))] else [])
          ++ (if neq (_yAngle (tick r s)) (_lastYAngle s)
              then [(_servoYPin s, _yAngle (tick r s))] else [])).
Proof.
  intros N.
  destruct (@pass_no_handler r s N)
    as (out & [(R & W & u & E) | (G & A & x' & y' & E & W & _)]);
    exists out; rewrite E; cbn.
  - split; [ reflexivity | ]. split.
    + intros _. now repeat split.
    + intros G A. exfalso. destruct R as [R | R]; [ lia | contradiction ].
  - split; [ reflexivity | ]. split.
    + intros [R | R]; [ lia | contradiction ].
    + intros _ _. exact W.
Qed.

(** The action time after an acting pass, whatever the handlers do. *)
Lemma tick_acts_time r s :
  currentTime r - _lastActionTime s > 100 ->
  passActs r s ->
  _lastActionTime (tick r s) = currentTime r
  /\ _lastXAngle (tick r s) = _xAngle (tick r s)
  /\ _lastYAngle (tick r s) = _yAngle (tick r s).
Proof.
  intros G A. destruct (Z.eq_dec (buttonState r) 0) as [B | B].
  - rewrite tick_pressed by assumption.
    match goal with |- context [moveServos callAngle ?t] =>
      destruct (moveServos_shape callAngle t) as (ox & oy & -> & _) end.
    now repeat split.
  - destruct (tick_released_shape callButton callAngle r s G B)
      as (ax & ay & out & _ & _ & [(_ & ->) | (N & _)]).
    + now repeat split.
    + contradiction.
Qed.

(** X2. Actions are at least 100 ms apart: after a pass that acted at time
    [t], a pass sampled no more than 100 ms later does nothing but its
    telemetry and its pause, whatever it reads and whatever handlers are
    registered; angles and action time stay and no servo is written. *)
Theorem no_action_within_100ms r1 r2 s :
  currentTime r1 - _lastActionTime s > 100 ->
  passActs r1 s ->
  currentTime r2 - currentTime r1 <= 100 ->
  tick r2 (tick r1 s) = emit (Pause 50) (reportReadings r2 (tick r1 s))
  /\ _xAngle (tick r2 (tick r1 s)) = _xAngle (tick r1 s)
  /\ _yAngle (tick r2 (tick r1 s)) = _yAngle (tick r1 s)
  /\ _lastActionTime (tick r2 (tick r1 s)) = currentTime r1
  /\ exists out,
       effects (tick r2 (tick r1 s)) = effects (tick r1 s) ++ out
       /\ servoWrites out = [].
Proof.
  intros G A C. destruct (@tick_acts_time r1 s G A) as (T & _).
  set (s1 := tick r1 s) in *.
  rewrite forever_body_idle by lia.
  destruct (reportReadings_shape r2 s1) as (o1 & -> & W1). cbn.
  repeat split; try assumption.
  exists (o1 ++ [Pause 50]). split.
  - now rewrite <- app_assoc.
  - now rewrite servoWrites_app, W1.
Qed.


(** A pass in which nothing asks for action, whatever handlers are
    registered. *)
Lemma tick_rests r s :
  ~ passActs r s ->
  exists u out,
    tick r s = set_effects (effects s ++ out) (set_updated u s)
    /\ servoWrites out = [].
Proof.
  intros N.
  assert (B : buttonState r <> 0) by (unfold passActs in N; tauto).
  destruct (@pass_no_handler r s (or_introl B))
    as (out & [(_ & W & u & E) | (_ & A & _)]).
  - now exists u, out.
  - contradiction.
Qed.

(** X4. A run in which no reading asks for a step and the button is never
    pressed changes nothing but the flag and the log and writes to no servo.
    In particular angles set by [setServoLimits] are not sent to the servos
    by such a run: the last commanded angles stay as they were. *)
Theorem resting_run_changes_nothing rs :
  forall s,
    Forall (fun r => ~ passActs r s) rs ->
    exists u out,
      forever callButton callAngle rs s =
        set_effects (effects s ++ out) (set_updated u s)
      /\ servoWrites out = [].
Proof.
  induction rs as [ | r rs IH ]; intros s F; cbn [forever].
  - exists (_updated s), []. split; [ | reflexivity ].
    rewrite app_nil_r. now destruct s.
  - inversion F as [ | ? ? N Fs ]; subst.
    destruct (@tick_rests r s N) as (u & o1 & -> & W1).
    destruct (IH (set_effects (effects s ++ o1) (set_updated u s)))
      as (u' & o2 & -> & W2).
    { exact Fs. }
    exists u', (o1 ++ o2). cbn. split.
    + now rewrite <- app_assoc.
    + now rewrite servoWrites_app, W1, W2.
Qed.

(** ** Runs with no button handler registered *)

Lemma writesWithin_app lo hi ws vs :
  writesWithin lo hi ws -> writesWithin lo hi vs ->
  writesWithin lo hi (ws ++ vs).
Proof. intros W V. apply Forall_app. now split. Qed.

(** One pass keeps the slot empty, the limits, the debug flag and the
    range invariant, and writes values within the limits only. *)
Lemma pass_without_handler r s :
  _buttonPressedHandler s = None ->
  limitsOk s -> inRange s ->
  _buttonPressedHandler (tick r s) = None
  /\ _debugMode (tick r s) = _debugMode s
  /\ _servoMinAngle (tick r s) = _servoMinAngle s
  /\ _servoMaxAngle (tick r s) = _servoMaxAngle s
  /\ limitsOk (tick r s)
  /\ inRange (tick r s)
  /\ exists out,
       effects (tick r s) = effects s ++ out
       /\ writesWithin (_servoMinAngle s) (_servoMaxAngle s) (servoWrites out).
Proof.
  intros H L I.
  destruct (@pass_no_handler r s (or_intror H))
    as (out & [(_ & W & u & E) | (_ & _ & x' & y' & E & W & C)]);
    rewrite E; unfold limitsOk, inRange in *; cbn.
  - repeat split; try tauto.
    exists out. split; [ reflexivity | ]. rewrite W. constructor.
  - assert (RX : _servoMinAngle s <= x' <= _servoMaxAngle s).
    { destruct C as [(_ & RX & _) | (_ & -> & _)]; [ | tauto ].
      apply (stepRule_range RX); tauto. }
    assert (RY : _servoMinAngle s <= y' <= _servoMaxAngle s).
    { destruct C as [(_ & _ & RY) | (_ & _ & ->)]; [ | tauto ].
      apply (stepRule_range RY); tauto. }
    repeat split; try tauto.
    exists out. split; [ reflexivity | ]. rewrite W.
    apply writesWithin_app.
    + destruct (neq x' (_lastXAngle s)); repeat constructor; cbn; tauto.
    + destruct (neq y' (_lastYAngle s)); repeat constructor; cbn; tauto.
Qed.

(** X5. With no button handler registered, limits in order and both angles
    within them, every value the loop writes to a servo, over any number of
    passes and whatever is read, lies within the limits. *)
Theorem loop_writes_within_limits rs :
  forall s,
    _buttonPressedHandler s = None ->
    limitsOk s -> inRange s ->
    exists out,
      effects (forever callButton callAngle rs s) = effects s ++ out
      /\ writesWithin (_servoMinAngle s) (_servoMaxAngle s) (servoWrites out).
Proof.
  induction rs as [ | r rs IH ]; intros s H L I; cbn [forever].
  - exists []. split; [ now rewrite app_nil_r | constructor ].
  - destruct (@pass_without_handler r s H L I)
      as (H1 & _ & Mn & Mx & L1 & I1 & o1 & E1 & W1).
    destruct (IH (tick r s) H1 L1 I1) as (o2 & E2 & W2).
    exists (o1 ++ o2). split.
    + now rewrite E2, E1, <- app_assoc.
    + rewrite servoWrites_app. apply writesWithin_app; [ exact W1 | ].
      now rewrite Mn, Mx in W2.
Qed.






(** X8. A handler slot holds one handler and the last registration wins:
    after registering [h1] and then [h2], a gated pressed pass runs [h2]
    alone, on the state the axis blocks left, exactly as if [h1] had never
    been registered. *)
Theorem last_button_handler_wins h1 h2 r s :
  currentTime r - _lastActionTime s > 100 ->
  buttonState r = 0 ->
  tick r (onButtonPressed h2 (onButtonPressed h1 s))
  = tick r (onButtonPressed h2 s)
  /\ exists out,
       servoWrites out = []
       /\ tick r (onButtonPressed h2 (onButtonPressed h1 s)) =
            emit (Pause 50)
              (moveServos callAngle
                 (set_lastActionTime (currentTime r)
                    (set_effects
                       (effects
                          (callButton h2 (decided r (onButtonPressed h2 s)))
                        ++ out)
                       (set_updated true
                          (callButton h2
                             (decided r (onButtonPressed h2 s))))))).
Proof.
  intros G B. split; [ reflexivity | ].
  change (onButtonPressed h2 (onButtonPressed h1 s))
    with (onButtonPressed h2 s).
  rewrite tick_pressed by assumption.
  assert (Hd : _buttonPressedHandler (decided r (onButtonPressed h2 s))
               = Some h2).
  { destruct (decided_shape r (onButtonPressed h2 s))
      as (ax & ay & u & o1 & -> & _). reflexivity. }
  destruct (controlButton_handler callButton _ Hd) as (out & -> & W).
  now exists out.
Qed.

(** X9. The limits are not checked when they are set, but the clamps bring
    a stray angle back: on a gated pass with the button released and a step
    that is not negative, an angle above the upper limit becomes exactly the
    upper limit when its reading asks for an increase, and an angle below the
    lower limit becomes exactly the lower limit when its reading asks for a
    decrease. *)
Theorem clamp_recovers_stray_angle r s :
  currentTime r - _lastActionTime s > 100 ->
  buttonState r <> 0 ->
  0 <= _servoStep s ->
  (_servoMaxAngle s <= _xAngle s ->
   _xMaxThresholdMin s < xValue r <= _xMaxThresholdMax s ->
   _xAngle (forever_body callButton callAngle r s) = _servoMaxAngle s)
  /\ (_xAngle s <= _servoMinAngle s ->
      ~ _xMaxThresholdMin s < xValue r <= _xMaxThresholdMax s ->
      xValue r < _xMinThreshold s ->
      _xAngle (forever_body callButton callAngle r s) = _servoMinAngle s)
  /\ (_servoMaxAngle s <= _yAngle s ->
      _yMaxThresholdMin s < yValue r <= _yMaxThresholdMax s ->
      _yAngle (forever_body callButton callAngle r s) = _servoMaxAngle s)
  /\ (_yAngle s <= _servoMinAngle s ->
      ~ _yMaxThresholdMin s < yValue r <= _yMaxThresholdMax s ->
      yValue r < _yMinThreshold s ->
      _yAngle (forever_body callButton callAngle r s) = _servoMinAngle s).
Proof.
  intros G B S.
  destruct (tick_released_shape callButton callAngle r s G B)
    as (ax & ay & out & (X1 & X2 & _) & (Y1 & Y2 & _) & E).
  repeat split; intros;
    (destruct E as [(_ & ->) | (N & _)];
     [ cbn; first [ rewrite X1 by assumption | rewrite X2 by assumption
                  | rewrite Y1 by assumption | rewrite Y2 by assumption ];
       lia
     | exfalso; apply N; unfold passActs, asksStep; tauto ]).
Qed.

End Further.

(** ** Exported functions, further *)

Section FurtherExported.

Variables BH AH : Type.
Variable callButton : BH -> State BH AH -> State BH AH.
Variable callAngle : AH -> Z -> Z -> State BH AH -> State BH AH.

Implicit Type s : State BH AH.
Implicit Type r : Readings.

Local Abbreviation tick := (forever_body callButton callAngle).




(** X11. [resetServos] after [setServoAngles]: both angles and both last
    commanded angles end on the initial angle, and the reset writes the
    initial angle once to each servo whose constrained manual angle differed
    from it, and nothing to the other. *)
Theorem resetServos_after_setServoAngles xAngle yAngle s :
  let s1 := setServoAngles callAngle xAngle yAngle s in
  let s2 := resetServos callAngle s1 in
  _xAngle s2 = _servoInitAngle s /\ _yAngle s2 = _servoInitAngle s
  /\ _lastXAngle s2 = _servoInitAngle s /\ _lastYAngle s2 = _servoInitAngle s
  /\ exists outX outY,
       effects s2 = effects s1 ++ outX ++ outY
       /\ servoWrites outX =
            (if neq (_servoInitAngle s)
                  (Math.constrain xAngle (_servoMinAngle s) (_servoMaxAngle s))
             then [(_servoXPin s, _servoInitAngle s)] else [])
       /\ servoWrites outY =
            (if neq (_servoInitAngle s)
                  (Math.constrain yAngle (_servoMinAngle s) (_servoMaxAngle s))
             then [(_servoYPin s, _servoInitAngle s)] else []).
Proof.
  cbv zeta. unfold resetServos, setServoAngles. cbv zeta.
  match goal with |- context [moveServos callAngle (set_yAngle (Math.constrain _ _ _) ?t)] =>
    destruct (moveServos_shape callAngle
                (set_yAngle
                   (Math.constrain yAngle (_servoMinAngle t) (_servoMaxAngle t))
                   t))
      as (px & py & -> & _) end.
  cbn.
  match goal with |- context [moveServos callAngle ?t] =>
    destruct (moveServos_shape callAngle t)
      as (ox & oy & -> & Hx & Hy & _) end.
  cbn in *. do 4 (split; [ reflexivity | ]).
  now exists ox, oy.
Qed.


Lemma constrain_inside value low high :
  low <= value <= high -> Math.constrain value low high = value.
Proof.
  intros H. unfold Math.constrain. rewrite Z.gtb_ltb.
  destruct (Z.ltb_spec value low); [ lia | ].
  destruct (Z.ltb_spec high value); [ lia | reflexivity ].
Qed.

(** X13. Setting and reading back: an argument of [setServoAngles] that is
    within the limits is returned unchanged by the getter of its axis,
    whatever the other argument is. *)
Theorem setServoAngles_then_get xAngle yAngle s :
  (_servoMinAngle s <= xAngle <= _servoMaxAngle s ->
   getXAngle (setServoAngles callAngle xAngle yAngle s) = xAngle)
  /\ (_servoMinAngle s <= yAngle <= _servoMaxAngle s ->
      getYAngle (setServoAngles callAngle xAngle yAngle s) = yAngle).
Proof.
  unfold setServoAngles, getXAngle, getYAngle. cbv zeta.
  match goal with |- context [moveServos callAngle ?t] =>
    destruct (moveServos_shape callAngle t) as (ox & oy & -> & _) end.
  cbn. split; intros H; now apply constrain_inside.
Qed.


(** X15. [setServoLimits] checks nothing: the state it leaves satisfies
    the range invariant exactly when the given initial angle lies between
    the given limits, and the configuration invariant exactly when moreover
    the step is positive. *)
Theorem setServoLimits_unchecked minAngle maxAngle initAngle step s :
  (inRange (setServoLimits minAngle maxAngle initAngle step s)
   <-> minAngle <= initAngle <= maxAngle)
  /\ (limitsOk (setServoLimits minAngle maxAngle initAngle step s)
      <-> minAngle <= initAngle <= maxAngle /\ 0 < step).
Proof.
  destruct (setServoLimits_shape minAngle maxAngle initAngle step s)
    as (out & -> & _).
  unfold inRange, limitsOk. cbn. split; tauto.
Qed.

Lemma setJoystickThresholds_shape xlo xhi xmn ylo yhi ymn s :
  exists out,
    setJoystickThresholds xlo xhi xmn ylo yhi ymn s =
      set_effects (effects s ++ out)
        (set_thresholds xlo xhi xmn ylo yhi ymn s)
    /\ servoWrites out = []
    /\ (_debugMode s = false -> out = []).
Proof.
  unfold setJoystickThresholds. cbn. destruct (_debugMode s).
  - eexists. split; [ reflexivity | ]. split; [ reflexivity | discriminate ].
  - exists []. cbn. rewrite app_nil_r. now repeat split.
Qed.


(** The stepping rule on a gated pass with the button released. *)
Lemma tick_released_angles r s :
  currentTime r - _lastActionTime s > 100 ->
  buttonState r <> 0 ->
  stepRule (_xMaxThresholdMin s) (_xMaxThresholdMax s) (_xMinThreshold s)
    (_servoStep s) (_servoMinAngle s) (_servoMaxAngle s)
    (xValue r) (_xAngle s) (_xAngle (tick r s))
  /\ stepRule (_yMaxThresholdMin s) (_yMaxThresholdMax s) (_yMinThreshold s)
       (_servoStep s) (_servoMinAngle s) (_servoMaxAngle s)
       (yValue r) (_yAngle s) (_yAngle (tick r s)).
Proof.
  intros G B.
  destruct (@pass_no_handler _ _ callButton callAngle r s (or_introl B))
    as (out & [(R & _ & u & ->) | (_ & _ & x' & y' & -> & _ & C)]); cbn.
  - destruct R as [R | R]; [ lia | ].
    unfold passActs, asksStep in R. unfold stepRule.
    repeat split; intros; solve [ reflexivity | exfalso; tauto | lia ].
  - destruct C as [(_ & RX & RY) | (B0 & _)]; [ now split | contradiction ].
Qed.

(** X17. [setJoystickThresholds] replaces the six thresholds (each band
    given as lower bound, then upper bound) and nothing else: limits, angles,
    last commanded angles, action time and handlers stay and no servo is
    written.  The next gated pass with the button released steps both axes
    by the new thresholds. *)
Theorem thresholds_take_effect xlo xhi xmn ylo yhi ymn r s :
  currentTime r - _lastActionTime s > 100 ->
  buttonState r <> 0 ->
  let s' := setJoystickThresholds xlo xhi xmn ylo yhi ymn s in
  (exists out,
     s' = set_effects (effects s ++ out)
            (set_thresholds xlo xhi xmn ylo yhi ymn s)
     /\ servoWrites out = [])
  /\ stepRule xlo xhi xmn (_servoStep s) (_servoMinAngle s)
       (_servoMaxAngle s) (xValue r) (_xAngle s) (_xAngle (tick r s'))
  /\ stepRule ylo yhi ymn (_servoStep s) (_servoMinAngle s)
       (_servoMaxAngle s) (yValue r) (_yAngle s) (_yAngle (tick r s')).
Proof.
  intros G B. cbv zeta.
  destruct (setJoystickThresholds_shape xlo xhi xmn ylo yhi ymn s)
    as (out & E & W & _).
  split; [ now exists out | ].
  rewrite E.
  match goal with |- context [tick r ?t] =>
    pose proof (@tick_released_angles r t G B) as T end.
  exact T.
Qed.

End FurtherExported.

(** ** Repeated steps *)

Section RepeatedSteps.

Variables BH AH : Type.
Variable callButton : BH -> State BH AH -> State BH AH.
Variable callAngle : AH -> Z -> Z -> State BH AH -> State BH AH.

Implicit Type s : State BH AH.
Implicit Type r : Readings.

Local Abbreviation tick := (forever_body callButton callAngle).
Local Abbreviation run := (forever callButton callAngle).





End RepeatedSteps.

(** * Worked cases, further *)

(** X1 after the limits were changed to centre 45: a pass that steps X up
    writes 60 to the X servo and the pending 45 to the Y servo. *)
Lemma pass_servo_writes_witness :
  noHandlerRuns (passUp 200) recentred
  /\ currentTime (passUp 200) - _lastActionTime recentred > 100
  /\ passActs (passUp 200) recentred
  /\ exists out,
       effects (pass (passUp 200) recentred) = effects recentred ++ out
       /\ servoWrites out = [(Some 12, 60); (Some 16, 45)].
Proof.
  assert (N : noHandlerRuns (passUp 200) recentred)
    by (left; vm_compute; discriminate).
  assert (G : currentTime (passUp 200) - _lastActionTime recentred > 100)
    by (vm_compute; reflexivity).
  assert (A : passActs (passUp 200) recentred).
  { left. left. vm_compute. split; [ reflexivity | discriminate ]. }
  split; [ exact N | ]. split; [ exact G | ]. split; [ exact A | ].
  destruct (pass_servo_writes readmeButtonHandler readmeAngleHandler N)
    as (out & E & _ & W).
  exists out. split; [ exact E | ].
  rewrite (W G A). vm_compute. reflexivity.
Defined.

(** X2: a step down asked for 50 ms after a step up is ignored. *)
Lemma no_action_within_100ms_witness :
  currentTime (passUp 200) - _lastActionTime ready > 100
  /\ passActs (passUp 200) ready
  /\ currentTime (passDown 250) - currentTime (passUp 200) <= 100
  /\ _xAngle (pass (passDown 250) (pass (passUp 200) ready)) = 105.
Proof.
  assert (G : currentTime (passUp 200) - _lastActionTime ready > 100)
    by (vm_compute; reflexivity).
  assert (A : passActs (passUp 200) ready).
  { left. left. vm_compute. split; [ reflexivity | discriminate ]. }
  assert (C : currentTime (passDown 250) - currentTime (passUp 200) <= 100)
    by (vm_compute; discriminate).
  split; [ exact G | ]. split; [ exact A | ]. split; [ exact C | ].
  destruct (@no_action_within_100ms unit unit readmeButtonHandler
              readmeAngleHandler (passUp 200) (passDown 250) ready G A C)
    as (_ & X & _).
  etransitivity; [ exact X | vm_compute; reflexivity ].
Defined.


(** X4: after the limits were changed to centre 45, passes with the sticks
    at rest leave the servos where they were, at 90. *)
Lemma resting_run_changes_nothing_witness :
  Forall (fun r => ~ passActs r recentred) [passIdle 200; passIdle 400]
  /\ _xAngle (passes [passIdle 200; passIdle 400] recentred) = 45
  /\ _lastXAngle (passes [passIdle 200; passIdle 400] recentred) = 90.
Proof.
  assert (F : Forall (fun r => ~ passActs r recentred)
                [passIdle 200; passIdle 400]).
  { repeat constructor; unfold passActs, asksStep; vm_compute;
      intuition discriminate. }
  split; [ exact F | ].
  destruct (@resting_run_changes_nothing unit unit readmeButtonHandler
              readmeAngleHandler [passIdle 200; passIdle 400] recentred F)
    as (u & out & E & _).
  unfold passes. rewrite E. split; vm_compute; reflexivity.
Defined.

(** X5 on the initialised board, over a run that steps up four times,
    presses and steps down. *)
Lemma loop_writes_within_limits_witness :
  _buttonPressedHandler ready = None
  /\ limitsOk ready
  /\ inRange ready
  /\ exists out,
       effects (passes [passUp 200; passUp 400; passUp 600; passUp 800;
                        passPressed 1000; passDown 1200] ready)
       = effects ready ++ out
       /\ writesWithin 0 180 (servoWrites out).
Proof.
  assert (H : _buttonPressedHandler ready = None) by reflexivity.
  assert (L : limitsOk ready) by (vm_compute; repeat split; discriminate).
  assert (I : inRange ready) by (vm_compute; repeat split; discriminate).
  split; [ exact H | ]. split; [ exact L | ]. split; [ exact I | ].
  exact (@loop_writes_within_limits unit unit readmeButtonHandler
           readmeAngleHandler _ ready H L I).
Defined.



(** X8 with two handlers: registering the second replaces the first. *)
Lemma last_button_handler_wins_witness :
  currentTime (passPressed 200) - _lastActionTime (initial bool unit) > 100
  /\ buttonState (passPressed 200) = 0
  /\ forever_body eitherButtonHandler idleAngleHandler (passPressed 200)
       (onButtonPressed true (onButtonPressed false (initial bool unit)))
     = forever_body eitherButtonHandler idleAngleHandler (passPressed 200)
         (onButtonPressed true (initial bool unit)).
Proof.
  assert (G : currentTime (passPressed 200)
              - _lastActionTime (initial bool unit) > 100)
    by (vm_compute; reflexivity).
  assert (B : buttonState (passPressed 200) = 0) by reflexivity.
  split; [ exact G | ]. split; [ exact B | ].
  exact (proj1 (@last_button_handler_wins bool unit eitherButtonHandler
                  idleAngleHandler false true (passPressed 200)
                  (initial bool unit) G B)).
Defined.

(** X9 with the initial angle 150 above the upper limit 100: the first
    step up lands on 100. *)
Lemma clamp_recovers_stray_angle_witness :
  currentTime (passUp 200) - _lastActionTime initAboveLimit > 100
  /\ buttonState (passUp 200) <> 0
  /\ 0 <= _servoStep initAboveLimit
  /\ _servoMaxAngle initAboveLimit <= _xAngle initAboveLimit
  /\ _xAngle initAboveLimit = 150
  /\ _xAngle (pass (passUp 200) initAboveLimit) = 100.
Proof.
  assert (G : currentTime (passUp 200) - _lastActionTime initAboveLimit > 100)
    by (vm_compute; reflexivity).
  assert (B : buttonState (passUp 200) <> 0) by (vm_compute; discriminate).
  assert (S : 0 <= _servoStep initAboveLimit) by (vm_compute; discriminate).
  assert (M : _servoMaxAngle initAboveLimit <= _xAngle initAboveLimit)
    by (vm_compute; discriminate).
  split; [ exact G | ]. split; [ exact B | ]. split; [ exact S | ].
  split; [ exact M | ]. split; [ vm_compute; reflexivity | ].
  destruct (@clamp_recovers_stray_angle unit unit readmeButtonHandler
              readmeAngleHandler (passUp 200) initAboveLimit G B S)
    as (R & _).
  etransitivity; [ apply (R M) | vm_compute; reflexivity ].
  vm_compute. split; [ reflexivity | discriminate ].
Defined.

(** X13: 30 is within 0..180 and comes back unchanged, while 999 is not
    and does not. *)
Lemma setServoAngles_then_get_witness :
  _servoMinAngle ready <= 30 <= _servoMaxAngle ready
  /\ getXAngle (setServoAngles readmeAngleHandler 30 999 ready) = 30
  /\ getYAngle (setServoAngles readmeAngleHandler 30 999 ready) <> 999.
Proof.
  assert (R : _servoMinAngle ready <= 30 <= _servoMaxAngle ready)
    by (vm_compute; split; discriminate).
  split; [ exact R | ].
  split; [ | vm_compute; discriminate ].
  exact (proj1 (setServoAngles_then_get readmeAngleHandler 30 999 ready) R).
Defined.



(** X17: with the X band moved to (100, 300], a sample of 200 steps X up
    from 90 to 105. *)
Lemma thresholds_take_effect_witness :
  currentTime (mkReadings 200 200 500 1) - _lastActionTime ready > 100
  /\ buttonState (mkReadings 200 200 500 1) <> 0
  /\ _xAngle (pass (mkReadings 200 200 500 1)
                (setJoystickThresholds 100 300 50 760 800 250 ready))
     = 105.
Proof.
  assert (G : currentTime (mkReadings 200 200 500 1)
              - _lastActionTime ready > 100) by (vm_compute; reflexivity).
  assert (B : buttonState (mkReadings 200 200 500 1) <> 0)
    by (vm_compute; discriminate).
  split; [ exact G | ]. split; [ exact B | ].
  destruct (@thresholds_take_effect unit unit readmeButtonHandler
              readmeAngleHandler 100 300 50 760 800 250
              (mkReadings 200 200 500 1) ready G B)
    as (_ & (R & _) & _).
  etransitivity; [ apply R | vm_compute; reflexivity ].
  vm_compute. split; [ reflexivity | discriminate ].
Defined.

